(** * boofuzz: [SocketConnection] (boofuzz/socket_connection.py)

    A shallow embedding of the [SocketConnection] class and the properties
    of its constructor and of [open], [recv], [send] and [close].

    The class talks to the operating system through Python's [socket],
    [ssl] and [httplib] modules and through [helpers.get_max_udp_size].
    Those calls are the program's interaction with its environment: a
    method is embedded as a finite tree of library calls, each of which
    the environment answers with a value or with an exception.  The
    Python-level state (the attributes of [self], the class attribute
    [MAX_PAYLOADS]) is threaded explicitly, and survives a raised
    exception the way it does in Python. *)

From Stdlib Require Import ZArith List String Ascii Bool Lia PrimFloat.
From stdpp Require Import base decidable option list strings gmap.

Local Open Scope string_scope.
Local Open Scope Z_scope.

(** ** Values *)

(** A Python 2 byte string used as a payload. *)
Definition bytes := list Byte.byte.

(** The identity of a socket object. *)
Definition handle := nat.

Inductive address_family := AF_INET | AF_PACKET.
Inductive socket_kind := SOCK_STREAM | SOCK_DGRAM | SOCK_RAW.

(** Address tuples handed to [sendto]: the pairs [(host, port)] and the
    five-tuple of [AF_PACKET]. *)
Inductive address :=
| addr_pair (host : string) (port : option Z)
| addr_packet (ifname : string) (protocol pkttype hatype : Z) (addr : bytes).

(** ** Exceptions *)

(** [socket.error] and its subclasses; [except socket.timeout] selects
    the class [cls_timeout], [except socket.error] selects all of them. *)
Inductive socket_error_class :=
| cls_error | cls_timeout | cls_herror | cls_gaierror | cls_sslerror.

#[global] Instance socket_error_class_eq_dec : EqDecision socket_error_class.
Proof. solve_decision. Defined.

(** What a library call can raise. *)
Inductive lib_exn :=
| socket_error (cls : socket_error_class) (errno : option Z) (message : string)
| other_error (cls : string) (message : string).

(** What a method of the class can raise: the exceptions the class
    raises itself, the [AttributeError] of an attribute access on [None],
    and whatever comes out of a library call. *)
Inductive exn :=
| SullyRuntimeError (message : string)
| ValueError (message : string)
| BoofuzzTargetConnectionFailedError (message : string)
| AttributeError (message : string)
| LibraryError (e : lib_exn).

(** The constants of Python's [errno] module that the class reads; their
    values depend on the platform. *)
Record errno_module := {
  ECONNABORTED : Z;
  ECONNREFUSED : Z;
  ECONNRESET : Z;
  ENETRESET : Z;
  ETIMEDOUT : Z
}.

Definition linux_errno : errno_module :=
  {| ECONNABORTED := 103; ECONNREFUSED := 111; ECONNRESET := 104;
     ENETRESET := 102; ETIMEDOUT := 110 |}.

(** [e.errno == c] where [e.errno] may be [None]. *)
Definition errno_is (e : option Z) (c : Z) : bool :=
  match e with Some n => n =? c | None => false end.

(** ** Library calls *)

Inductive call : Type -> Type :=
| helpers_get_max_udp_size : call Z
| socket_socket (family : address_family) (kind : socket_kind) : call handle
| sock_bind (s : handle) (addr : string * Z) : call unit
| sock_settimeout (s : handle) (value : float) : call unit
| sock_connect (s : handle) (addr : string * option Z) : call unit
| ssl_wrap_socket (s : option handle) : call handle
| httplib_FakeSocket (s : option handle) (ssl : handle) : call handle
| sock_recv (s : handle) (bufsize : Z) : call bytes
| sock_recvfrom (s : handle) (bufsize : Z) : call (bytes * (string * Z))
| sock_send (s : handle) (data : bytes) : call Z
| sock_sendto (s : handle) (data : bytes) (addr : address) : call Z
| sock_close (s : handle) : call unit.

Inductive any_call :=
| AnyCall : forall X : Type, call X -> any_call.
Arguments AnyCall {X} c.

(** ** Programs *)

(** A finite interaction: return, or perform a library call and go on
    with its answer, a value or an exception. *)
Inductive prog (R : Type) : Type :=
| Ret (r : R)
| Vis (X : Type) (c : call X) (k : X + lib_exn -> prog R).
Arguments Ret {R} r.
Arguments Vis {R X} c k.

Fixpoint prog_bind {R T} (t : prog R) (f : R -> prog T) : prog T :=
  match t with
  | Ret r => f r
  | Vis c k => Vis c (fun a => prog_bind (k a) f)
  end.

(** A computation over Python state [S]: the state after the computation
    comes with its value or with the exception it raised. *)
Definition M (S A : Type) : Type := S -> prog (S * (A + exn)).

Definition ret {S A} (a : A) : M S A := fun s => Ret (s, inl a).
Definition raise {S A} (e : exn) : M S A := fun s => Ret (s, inr e).
Definition and_then {S A B} (m : M S A) (f : A -> M S B) : M S B :=
  fun s => prog_bind (m s) (fun sr =>
    match snd sr with
    | inl a => f a (fst sr)
    | inr e => Ret (fst sr, inr e)
    end).
Definition get {S} : M S S := fun s => Ret (s, inl s).
Definition modify {S} (f : S -> S) : M S unit := fun s => Ret (f s, inl tt).

(** A library call; its exception becomes a Python exception of the
    caller. *)
Definition lib {S X} (c : call X) : M S X :=
  fun s => Vis c (fun a =>
    Ret (s, match a with inl x => inl x | inr e => inr (LibraryError e) end)).

(** [try: m  except ...: h]; a handler that matches no clause re-raises. *)
Definition try_except {S A} (m : M S A) (h : exn -> M S A) : M S A :=
  fun s => prog_bind (m s) (fun sr =>
    match snd sr with
    | inl a => Ret (fst sr, inl a)
    | inr e => h e (fst sr)
    end).

Declare Scope py_scope.
Delimit Scope py_scope with py.
Notation "x <- m ;; k" := (and_then m (fun x => k))
  (at level 100, m at next level, right associativity) : py_scope.
Notation "m ;;; k" := (and_then m (fun _ => k))
  (at level 100, right associativity) : py_scope.

(** ** The environment *)

(** An environment answers every library call from its own state [W]. *)
Definition handler (W : Type) : Type :=
  forall X, call X -> W -> (X + lib_exn) * W.

Record run_result (W R : Type) := {
  outcome : R;
  world : W;
  calls : list any_call
}.
Arguments outcome {W R} _.
Arguments world {W R} _.
Arguments calls {W R} _.

Fixpoint interp {W R} (env : handler W) (t : prog R) (w : W) : run_result W R :=
  match t with
  | Ret r => {| outcome := r; world := w; calls := [] |}
  | Vis c k =>
      let aw := env _ c w in
      let r := interp env (k (fst aw)) (snd aw) in
      {| outcome := outcome r; world := world r;
         calls := AnyCall c :: calls r |}
  end.

(** ** The class *)

Section SocketConnection.

(** Python's [errno] module on the platform at hand. *)
Variable errno : errno_module.

(** [ip_constants.UDP_MAX_LENGTH], the [udp] entry the class body puts
    into [MAX_PAYLOADS]; the module is not part of this file. *)
Variable UDP_MAX_LENGTH : Z.

Definition ETH_P_IP : Z := 0x0800.

Definition _PROTOCOLS : list string := ["tcp"; "ssl"; "udp"; "raw-l2"; "raw-l3"].
Definition _PROTOCOLS_PORT_REQUIRED : list string := ["tcp"; "ssl"; "udp"].

(** The mutable class attribute: one dictionary shared by the class and
    all of its instances. *)
Record class_attrs := { MAX_PAYLOADS : gmap string Z }.

Definition class_body : class_attrs :=
  {| MAX_PAYLOADS :=
       <["raw-l2" := 1514]> (<["raw-l3" := 1500]> (<["udp" := UDP_MAX_LENGTH]> ∅)) |}.

(** [self.MAX_PAYLOADS[key] = value]: the attribute is found on the
    class, and the item assignment updates that dictionary in place. *)
Definition setitem_MAX_PAYLOADS (key : string) (value : Z) (cls : class_attrs)
  : class_attrs :=
  {| MAX_PAYLOADS := <[key := value]> (MAX_PAYLOADS cls) |}.

(** The attributes of an instance. *)
Record SocketConnection := {
  host : string;
  port : option Z;
  bind : option (string * Z);
  timeout : float;
  proto : string;
  ethernet_proto : Z;
  l2_dst : bytes;
  _sock : option handle
}.

Definition set_sock (s : handle) (self : SocketConnection) : SocketConnection :=
  {| host := host self; port := port self; bind := bind self;
     timeout := timeout self; proto := proto self;
     ethernet_proto := ethernet_proto self; l2_dst := l2_dst self;
     _sock := Some s |}.

(** [str.lower] on a byte string. *)
Definition lower_ascii (a : ascii) : ascii :=
  let n := nat_of_ascii a in
  if ((65 <=? n) && (n <=? 90))%nat then ascii_of_nat (n + 32) else a.

Fixpoint lower (s : string) : string :=
  match s with
  | EmptyString => EmptyString
  | String a s' => String (lower_ascii a) (lower s')
  end.

(** [data[:n]]: a negative [n] counts from the end. *)
Definition slice_to (n : Z) (data : bytes) : bytes :=
  if 0 <=? n then take (Z.to_nat n) data
  else take (Z.to_nat (Z.of_nat (length data) + n)) data.

(** Defaults of the keyword arguments of [__init__]. *)
Definition default_port : option Z := None.
Definition default_proto : string := "tcp".
Definition default_bind : option (string * Z) := None.
Definition default_timeout : float := 5%float.
Definition default_ethernet_proto : Z := ETH_P_IP.
Definition default_l2_dst : bytes := repeat Byte.xff 6.

Definition __init__ (host_ : string) (port_ : option Z) (proto_ : string)
    (bind_ : option (string * Z)) (timeout_ : float) (ethernet_proto_ : Z)
    (l2_dst_ : bytes) : M class_attrs SocketConnection :=
  (size <- lib helpers_get_max_udp_size ;;
   modify (setitem_MAX_PAYLOADS "udp" size) ;;;
   let self :=
     {| host := host_; port := port_; bind := bind_; timeout := timeout_;
        proto := lower proto_; ethernet_proto := ethernet_proto_;
        l2_dst := l2_dst_; _sock := None |} in
   if negb (bool_decide (self.(proto) ∈ _PROTOCOLS)) then
     raise (SullyRuntimeError ("INVALID PROTOCOL SPECIFIED: " +:+ self.(proto)))
   else if bool_decide (self.(proto) ∈ _PROTOCOLS_PORT_REQUIRED)
           && bool_decide (self.(port) = None) then
     raise (ValueError
       ("__init__() argument port required for protocol " +:+ self.(proto)))
   else ret self)%py.

(** [self._sock.name]: an attribute access, which fails on [None]. *)
Definition attr_sock (name : string) : M SocketConnection handle :=
  (self <- get ;;
   match self.(_sock) with
   | Some s => ret s
   | None =>
       raise (AttributeError
         ("'NoneType' object has no attribute '" +:+ name +:+ "'"))
   end)%py.

Definition close : M SocketConnection unit :=
  (s <- attr_sock "close" ;; lib (sock_close s))%py.

Definition invalid_protocol (self : SocketConnection) : exn :=
  SullyRuntimeError ("INVALID PROTOCOL SPECIFIED: " +:+ self.(proto)).

(** The [except socket.error as e] clause of [open]. *)
Definition open_except (e : exn) : M SocketConnection unit :=
  match e with
  | LibraryError (socket_error _ en message) =>
      if errno_is en errno.(ECONNREFUSED) then
        raise (BoofuzzTargetConnectionFailedError message)
      else raise e
  | _ => raise e
  end.

Definition open : M SocketConnection unit :=
  (self <- get ;;
   (* Create socket *)
   (if String.eqb self.(proto) "tcp" || String.eqb self.(proto) "ssl" then
      s <- lib (socket_socket AF_INET SOCK_STREAM) ;; modify (set_sock s)
    else if String.eqb self.(proto) "udp" then
      s <- lib (socket_socket AF_INET SOCK_DGRAM) ;;
      modify (set_sock s) ;;;
      match self.(bind) with
      | Some b => s <- attr_sock "bind" ;; lib (sock_bind s b)
      | None => ret tt
      end
    else if String.eqb self.(proto) "raw-l2" then
      s <- lib (socket_socket AF_PACKET SOCK_RAW) ;; modify (set_sock s)
    else if String.eqb self.(proto) "raw-l3" then
      s <- lib (socket_socket AF_PACKET SOCK_DGRAM) ;; modify (set_sock s)
    else raise (invalid_protocol self)) ;;;
   s <- attr_sock "settimeout" ;;
   lib (sock_settimeout s self.(timeout)) ;;;
   (* Connect is needed only for TCP protocols *)
   (if String.eqb self.(proto) "tcp" || String.eqb self.(proto) "ssl" then
      try_except
        (s <- attr_sock "connect" ;;
         lib (sock_connect s (self.(host), self.(port))))
        open_except
    else ret tt) ;;;
   (* if SSL is requested, then enable it. *)
   (if String.eqb self.(proto) "ssl" then
      self1 <- get ;;
      ssl_sock <- lib (ssl_wrap_socket self1.(_sock)) ;;
      fake <- lib (httplib_FakeSocket self1.(_sock) ssl_sock) ;;
      modify (set_sock fake)
    else ret tt))%py.

(** The [except socket.timeout] and [except socket.error as e] clauses of
    [recv], tried in this order. *)
Definition recv_except (e : exn) : M SocketConnection bytes :=
  match e with
  | LibraryError (socket_error cls_timeout _ _) => ret []
  | LibraryError (socket_error _ en _) =>
      if errno_is en errno.(ECONNABORTED)
         || errno_is en errno.(ECONNREFUSED)
         || errno_is en errno.(ECONNRESET)
         || errno_is en errno.(ENETRESET)
         || errno_is en errno.(ETIMEDOUT)
      then ret []
      else raise e
  | _ => raise e
  end.

Definition recv (max_bytes : Z) : M SocketConnection bytes :=
  try_except
    (self <- get ;;
     if bool_decide (self.(proto) ∈ ["tcp"; "ssl"]) then
       s <- attr_sock "recv" ;; lib (sock_recv s max_bytes)
     else if String.eqb self.(proto) "udp" then
       match self.(bind) with
       | Some _ =>
           s <- attr_sock "recvfrom" ;;
           r <- lib (sock_recvfrom s max_bytes) ;;
           ret (fst r)
       | None =>
           raise (SullyRuntimeError
             ("SocketConnection.recv() for UDP requires a bind address/port."
              +:+ " Current value:"))
       end
     else if bool_decide (self.(proto) ∈ ["raw-l2"; "raw-l3"]) then
       (* receive on raw is not supported *)
       ret []
     else raise (invalid_protocol self))%py
    recv_except.

(** [send] reads the class attribute [MAX_PAYLOADS] and does not write
    it: the class attributes are an argument. *)
Definition send (cls : class_attrs) (data : bytes) : M SocketConnection Z :=
  (self <- get ;;
   let data :=
     match cls.(MAX_PAYLOADS) !! self.(proto) with
     | Some n => slice_to n data
     | None => data (* KeyError: pass *)
     end in
   if bool_decide (self.(proto) ∈ ["tcp"; "ssl"]) then
     s <- attr_sock "send" ;; lib (sock_send s data)
   else if String.eqb self.(proto) "udp" then
     s <- attr_sock "sendto" ;;
     lib (sock_sendto s data (addr_pair self.(host) self.(port)))
   else if String.eqb self.(proto) "raw-l2" then
     s <- attr_sock "sendto" ;;
     lib (sock_sendto s data (addr_pair self.(host) (Some 0)))
   else if String.eqb self.(proto) "raw-l3" then
     s <- attr_sock "sendto" ;;
     lib (sock_sendto s data
            (addr_packet self.(host) self.(ethernet_proto) 0 0 self.(l2_dst)))
   else raise (invalid_protocol self))%py.

End SocketConnection.

(** ** Running methods *)

(** The state a method leaves behind and what it returned or raised. *)
Definition state_of {W S A} (r : run_result W (S * (A + exn))) : S :=
  fst (outcome r).
Definition result_of {W S A} (r : run_result W (S * (A + exn))) : A + exn :=
  snd (outcome r).

(** Every way a program can end satisfies [P], whatever the environment
    answers. *)
Fixpoint leaves_all {R} (P : R -> Prop) (t : prog R) : Prop :=
  match t with
  | Ret r => P r
  | Vis c k => forall a, leaves_all P (k a)
  end.

(** The payload a call hands to a socket write, if it is one. *)
Definition written (c : any_call) : option bytes :=
  match c with
  | AnyCall c' =>
      match c' with
      | sock_send _ data => Some data
      | sock_sendto _ data _ => Some data
      | _ => None
      end
  end.

(** A caller that catches whatever a method raises and goes on. *)
Definition attempt {S A} (m : M S A) : M S (A + exn) :=
  fun s => prog_bind (m s) (fun sr => Ret (fst sr, inl (snd sr))).

(** The operations on an instance, and what they return. *)
Inductive operation :=
| op_open
| op_close
| op_recv (max_bytes : Z)
| op_send (cls : class_attrs) (data : bytes).

Inductive value :=
| v_none
| v_bytes (b : bytes)
| v_int (n : Z).

Definition perform (errno : errno_module) (op : operation)
  : M SocketConnection value :=
  match op with
  | op_open => (open errno ;;; ret v_none)%py
  | op_close => (close ;;; ret v_none)%py
  | op_recv max_bytes => (b <- recv errno max_bytes ;; ret (v_bytes b))%py
  | op_send cls data => (n <- send cls data ;; ret (v_int n))%py
  end.

(** A caller's use of one instance: a sequence of operations, each one
    attempted whatever became of the ones before. *)
Fixpoint session (errno : errno_module) (ops : list operation)
  : M SocketConnection (list (value + exn)) :=
  match ops with
  | [] => ret []
  | op :: ops' =>
      (r <- attempt (perform errno op) ;;
       rs <- session errno ops' ;;
       ret (r :: rs))%py
  end.

Definition set_port (p : option Z) (self : SocketConnection) : SocketConnection :=
  {| host := host self; port := p; bind := bind self;
     timeout := timeout self; proto := proto self;
     ethernet_proto := ethernet_proto self; l2_dst := l2_dst self;
     _sock := _sock self |}.

(** The class attributes that can arise: those of the class body, and
    those left by a run of [__init__]. *)
Inductive class_reachable (UDP_MAX_LENGTH : Z) : class_attrs -> Prop :=
| reach_body : class_reachable UDP_MAX_LENGTH (class_body UDP_MAX_LENGTH)
| reach_init cls size :
    class_reachable UDP_MAX_LENGTH cls ->
    class_reachable UDP_MAX_LENGTH (setitem_MAX_PAYLOADS "udp" size cls).

(** ** Observing the calls of a program *)

(** Every library call a program can make satisfies [P], whatever the
    environment answers. *)
Fixpoint calls_all {R} (P : any_call -> Prop) (t : prog R) : Prop :=
  match t with
  | Ret _ => True
  | Vis c k => P (AnyCall c) /\ forall a, calls_all P (k a)
  end.

(** A program makes at most [n] library calls, whatever the environment
    answers. *)
Fixpoint calls_within {R} (n : nat) (t : prog R) : Prop :=
  match t with
  | Ret _ => True
  | Vis c k =>
      match n with
      | O => False
      | S n' => forall a, calls_within n' (k a)
      end
  end.


Definition is_connect (c : any_call) : bool :=
  match c with
  | AnyCall c' => match c' with sock_connect _ _ => true | _ => false end
  end.

Definition is_ssl_upgrade (c : any_call) : bool :=
  match c with
  | AnyCall c' =>
      match c' with
      | ssl_wrap_socket _ => true
      | httplib_FakeSocket _ _ => true
      | _ => false
      end
  end.

(** The family and type of a socket creation. *)
Definition created (c : any_call) : option (address_family * socket_kind) :=
  match c with
  | AnyCall c' =>
      match c' with
      | socket_socket family kind => Some (family, kind)
      | _ => None
      end
  end.

(** The socket of each kind: a stream socket over IPv4 for tcp and ssl,
    a datagram socket over IPv4 for udp, a raw packet socket for raw-l2
    and a datagram packet socket for raw-l3. *)
Definition socket_of_kind (kind : string) : address_family * socket_kind :=
  if String.eqb kind "udp" then (AF_INET, SOCK_DGRAM)
  else if String.eqb kind "raw-l2" then (AF_PACKET, SOCK_RAW)
  else if String.eqb kind "raw-l3" then (AF_PACKET, SOCK_DGRAM)
  else (AF_INET, SOCK_STREAM).

(** The socket object a call is a method of. *)
Definition target (c : any_call) : option handle :=
  match c with
  | AnyCall c' =>
      match c' with
      | sock_bind s _ => Some s
      | sock_settimeout s _ => Some s
      | sock_connect s _ => Some s
      | sock_recv s _ => Some s
      | sock_recvfrom s _ => Some s
      | sock_send s _ => Some s
      | sock_sendto s _ _ => Some s
      | sock_close s => Some s
      | _ => None
      end
  end.

Definition is_open (op : operation) : bool :=
  match op with op_open => true | _ => false end.

(** The attributes given to the constructor: all but [_sock]. *)
Definition config (self : SocketConnection)
  : string * option Z * option (string * Z) * float * string * Z * bytes :=
  (host self, port self, bind self, timeout self, proto self,
   ethernet_proto self, l2_dst self).

(** The address pair of a [bind] call. *)
Definition bound_to (c : any_call) : option (string * Z) :=
  match c with
  | AnyCall c' => match c' with sock_bind _ addr => Some addr | _ => None end
  end.

Definition set_bind (b : option (string * Z)) (self : SocketConnection)
  : SocketConnection :=
  {| host := host self; port := port self; bind := b;
     timeout := timeout self; proto := proto self;
     ethernet_proto := ethernet_proto self; l2_dst := l2_dst self;
     _sock := _sock self |}.

Definition set_link (ethernet_proto_ : Z) (l2_dst_ : bytes)
    (self : SocketConnection) : SocketConnection :=
  {| host := host self; port := port self; bind := bind self;
     timeout := timeout self; proto := proto self;
     ethernet_proto := ethernet_proto_; l2_dst := l2_dst_;
     _sock := _sock self |}.

(** The message of the [AttributeError] of [None.name]. *)
Definition no_attribute (name : string) : string :=
  "'NoneType' object has no attribute '" +:+ name +:+ "'".

(** ** The specification's vocabulary *)

(** The errnos that [recv] is to turn into an empty payload. *)
Definition peer_disconnect_errnos (errno : errno_module) : list Z :=
  [errno.(ECONNABORTED); errno.(ECONNREFUSED); errno.(ECONNRESET);
   errno.(ENETRESET); errno.(ETIMEDOUT)].

(** A timeout, or a socket error with one of those errnos. *)
Definition absorbed_by_recv (errno : errno_module) (cls : socket_error_class)
    (en : option Z) : bool :=
  bool_decide (cls = cls_timeout)
  || match en with
     | Some n => bool_decide (n ∈ peer_disconnect_errnos errno)
     | None => false
     end.

(** The MaxPayload ceiling of a kind: 1514 for raw-l2, 1500 for raw-l3,
    the stored platform UDP maximum for udp, none for tcp and ssl. *)
Definition spec_ceiling (cls : class_attrs) (kind : string) : option Z :=
  if String.eqb kind "raw-l2" then Some 1514
  else if String.eqb kind "raw-l3" then Some 1500
  else if String.eqb kind "udp" then cls.(MAX_PAYLOADS) !! "udp"
  else None.

(** The first [min(len(data), ceiling)] bytes where the kind has a
    ceiling, [data] itself where it has none. *)
Definition spec_payload (cls : class_attrs) (kind : string) (data : bytes)
  : bytes :=
  match spec_ceiling cls kind with
  | Some ceiling =>
      take (Z.to_nat (Z.min (Z.of_nat (length data)) ceiling)) data
  | None => data
  end.


(** The lowercase form of a string: each of the 26 uppercase ASCII
    letters is replaced by the letter at the same place of the lowercase
    alphabet; every other character stays. *)
Definition uppercase_letters : list (ascii * ascii) :=
  zip (list_ascii_of_string "ABCDEFGHIJKLMNOPQRSTUVWXYZ")
      (list_ascii_of_string "abcdefghijklmnopqrstuvwxyz").

Definition lowercase_letter (a : ascii) : ascii :=
  match find (fun entry => Ascii.eqb (fst entry) a) uppercase_letters with
  | Some entry => snd entry
  | None => a
  end.

Fixpoint lowercase (s : string) : string :=
  match s with
  | EmptyString => EmptyString
  | String a s' => String (lowercase_letter a) (lowercase s')
  end.

(** "For every proto whose lowercase form is not a supported kind,
    construction raises the invalid-protocol error." *)
Definition unsupported_proto_raises_invalid : Prop :=
  forall W (env : handler W) (w : W) (cls : class_attrs)
         host_ port_ proto_ bind_ timeout_ ethernet_proto_ l2_dst_,
    lowercase proto_ ∉ ["tcp"; "ssl"; "udp"; "raw-l2"; "raw-l3"] ->
    result_of (interp env
      (__init__ host_ port_ proto_ bind_ timeout_ ethernet_proto_ l2_dst_ cls)
      w)
    = inr (SullyRuntimeError
             ("INVALID PROTOCOL SPECIFIED: " +:+ lowercase proto_)).

(** "For any casing variant of a supported kind, construction
    succeeds." *)
Definition supported_proto_constructs : Prop :=
  forall W (env : handler W) (w : W) (cls : class_attrs)
         host_ port_ proto_ bind_ timeout_ ethernet_proto_ l2_dst_,
    lowercase proto_ ∈ ["tcp"; "ssl"; "udp"; "raw-l2"; "raw-l3"] ->
    exists self,
      result_of (interp env
        (__init__ host_ port_ proto_ bind_ timeout_ ethernet_proto_ l2_dst_
           cls) w)
      = inl self.

(** "For tcp, ssl and udp, construction without a port raises the
    missing-port error." *)
Definition missing_port_raises : Prop :=
  forall W (env : handler W) (w : W) (cls : class_attrs)
         host_ proto_ bind_ timeout_ ethernet_proto_ l2_dst_,
    lowercase proto_ ∈ ["tcp"; "ssl"; "udp"] ->
    result_of (interp env
      (__init__ host_ None proto_ bind_ timeout_ ethernet_proto_ l2_dst_ cls)
      w)
    = inr (ValueError
             ("__init__() argument port required for protocol "
              +:+ lowercase proto_)).

(** "For raw-l2 and raw-l3, construction with any port succeeds." *)
Definition raw_proto_constructs : Prop :=
  forall W (env : handler W) (w : W) (cls : class_attrs)
         host_ port_ proto_ bind_ timeout_ ethernet_proto_ l2_dst_,
    lowercase proto_ ∈ ["raw-l2"; "raw-l3"] ->
    exists self,
      result_of (interp env
        (__init__ host_ port_ proto_ bind_ timeout_ ethernet_proto_ l2_dst_
           cls) w)
      = inl self.

(** A [connect] or a [sendto] whose address pair has no port. *)
Definition absent_port (c : any_call) : bool :=
  match c with
  | AnyCall c' =>
      match c' with
      | sock_connect _ (_, None) => true
      | sock_sendto _ _ (addr_pair _ None) => true
      | _ => false
      end
  end.

(** ** A sample environment *)

(** The platform reports the UDP sizes of a list, one per query, and
    hands out socket objects numbered in order; [recv], [recvfrom] and
    [connect] answer as told; writes accept everything. *)
Record sample_world := {
  next_handle : nat;
  udp_sizes : list Z
}.

Definition sample_env (recv_reply : bytes + lib_exn)
    (connect_reply : unit + lib_exn) : handler sample_world :=
  fun X c w =>
    let fresh := {| next_handle := S w.(next_handle);
                    udp_sizes := w.(udp_sizes) |} in
    match c in call X return (X + lib_exn) * sample_world with
    | helpers_get_max_udp_size =>
        match w.(udp_sizes) with
        | size :: sizes =>
            (inl size, {| next_handle := w.(next_handle); udp_sizes := sizes |})
        | [] => (inr (other_error "Exception" "Unknown platform!"), w)
        end
    | socket_socket _ _ => (inl w.(next_handle), fresh)
    | sock_bind _ _ => (inl tt, w)
    | sock_settimeout _ _ => (inl tt, w)
    | sock_connect _ _ => (connect_reply, w)
    | ssl_wrap_socket _ => (inl w.(next_handle), fresh)
    | httplib_FakeSocket _ s => (inl s, w)
    | sock_recv _ _ => (recv_reply, w)
    | sock_recvfrom _ _ =>
        (match recv_reply with
         | inl data => inl (data, ("127.0.0.1", 8888))
         | inr e => inr e
         end, w)
    | sock_send _ data => (inl (Z.of_nat (length data)), w)
    | sock_sendto _ data _ => (inl (Z.of_nat (length data)), w)
    | sock_close _ => (inl tt, w)
    end.

Definition sample_world0 (sizes : list Z) : sample_world :=
  {| next_handle := 3; udp_sizes := sizes |}.

Definition sample_connection (kind : string) (bind_ : option (string * Z))
    (sock : option handle) : SocketConnection :=
  {| host := "127.0.0.1"; port := Some 8888; bind := bind_;
     timeout := default_timeout; proto := kind;
     ethernet_proto := default_ethernet_proto; l2_dst := default_l2_dst;
     _sock := sock |}.

(** * Properties *)

(** ** Programs and their runs *)

Lemma interp_prog_bind {W R T} (env : handler W) (t : prog R)
    (f : R -> prog T) (w : W) :
  interp env (prog_bind t f) w =
    {| outcome := outcome (interp env (f (outcome (interp env t w)))
                             (world (interp env t w)));
       world := world (interp env (f (outcome (interp env t w)))
                         (world (interp env t w)));
       calls := calls (interp env t w)
                ++ calls (interp env (f (outcome (interp env t w)))
                            (world (interp env t w))) |}.
Proof.
  revert w. induction t as [r | X c k IH]; intros w; simpl.
  - destruct (interp env (f r) w); reflexivity.
  - rewrite IH. reflexivity.
Qed.

Lemma interp_leaves {W R} (P : R -> Prop) (env : handler W) (t : prog R)
    (w : W) :
  leaves_all P t -> P (outcome (interp env t w)).
Proof.
  revert w. induction t as [r | X c k IH]; intros w Ht; simpl in *.
  - exact Ht.
  - apply IH, Ht.
Qed.

Lemma leaves_all_impl {R} (P Q : R -> Prop) (t : prog R) :
  (forall r, P r -> Q r) -> leaves_all P t -> leaves_all Q t.
Proof.
  intros HPQ. induction t as [r | X c k IH]; simpl; intros Ht.
  - apply HPQ, Ht.
  - intros a. apply IH, Ht.
Qed.

Lemma leaves_all_bind {R T} (Q : T -> Prop) (t : prog R) (f : R -> prog T) :
  leaves_all (fun r => leaves_all Q (f r)) t -> leaves_all Q (prog_bind t f).
Proof.
  induction t as [r | X c k IH]; simpl; intros Ht.
  - exact Ht.
  - intros a. apply IH, Ht.
Qed.

(** ** Strings and kinds *)

Lemma lower_ascii_idempotent (a : ascii) :
  lower_ascii (lower_ascii a) = lower_ascii a.
Proof. destruct a as [[] [] [] [] [] [] [] []]; reflexivity. Qed.

Lemma lower_idempotent (s : string) : lower (lower s) = lower s.
Proof.
  induction s as [| a s IH]; simpl.
  - reflexivity.
  - rewrite lower_ascii_idempotent, IH. reflexivity.
Qed.

(** Membership in a literal list of kinds, as the list of cases. *)
Ltac kinds H :=
  repeat (apply elem_of_cons in H as [H | H]);
  try (apply elem_of_nil in H; contradiction).

(** A decidable fact about concrete values, by evaluation. *)
Ltac by_evaluation :=
  match goal with
  | |- ?P => apply (bool_decide_unpack P); vm_compute; exact I
  end.

(** Evaluate the membership tests on concrete kinds in the goal. *)
Ltac eval_kinds :=
  repeat match goal with
  | |- context [@bool_decide ?P ?d] =>
      let b := eval vm_compute in (@bool_decide P d) in
      change (@bool_decide P d) with b
  end.

Ltac run_method := cbn; eval_kinds; cbn.

Lemma bool_decide_elem_of_Z (n : Z) (l : list Z) :
  bool_decide (n ∈ l) = existsb (Z.eqb n) l.
Proof.
  induction l as [| m l IH]; cbn [existsb].
  - apply bool_decide_eq_false_2, not_elem_of_nil.
  - rewrite <- IH. destruct (Z.eqb_spec n m) as [-> | Hne]; cbn [orb].
    + apply bool_decide_eq_true_2, list_elem_of_here.
    + apply bool_decide_ext. rewrite elem_of_cons. tauto.
Qed.

(** ** [recv] *)

(** The two [except] clauses of [recv] absorb exactly the timeouts and
    the listed errnos. *)
Lemma recv_except_socket_error errno cls en message self :
  recv_except errno (LibraryError (socket_error cls en message)) self =
    Ret (self,
         if absorbed_by_recv errno cls en then inl []
         else inr (LibraryError (socket_error cls en message))).
Proof.
  unfold absorbed_by_recv, recv_except.
  destruct en as [n |].
  - rewrite bool_decide_elem_of_Z. unfold peer_disconnect_errnos, errno_is.
    simpl existsb. rewrite orb_false_r.
    destruct cls; simpl; try reflexivity;
      rewrite <- !orb_assoc;
      destruct (_ || _); reflexivity.
  - unfold errno_is. destruct cls; reflexivity.
Qed.

#[local] Arguments recv_except : simpl never.

Lemma recv_raw errno max_bytes self :
  proto self ∈ ["raw-l2"; "raw-l3"] ->
  recv errno max_bytes self = Ret (self, inl []).
Proof.
  intros H. destruct self; simpl in *.
  kinds H; subst; unfold recv, try_except; run_method; reflexivity.
Qed.

(** C6: on a raw-l2 or raw-l3 connection, [recv] returns the empty
    payload for every [max_bytes], whatever the environment (the traffic
    on the interface included) would answer, and leaves the connection as
    it was. *)
Theorem recv_raw_returns_empty errno W (env : handler W) (w : W)
    (self : SocketConnection) (max_bytes : Z) :
  proto self ∈ ["raw-l2"; "raw-l3"] ->
  outcome (interp env (recv errno max_bytes self) w) = (self, inl []).
Proof. intros H. rewrite recv_raw by exact H. reflexivity. Qed.

Lemma recv_raw_returns_empty_witness :
  outcome (interp (sample_env (inl [Byte.x41]) (inl tt))
             (recv linux_errno 1024 (sample_connection "raw-l3" None (Some 3%nat)))
             (sample_world0 []))
  = (sample_connection "raw-l3" None (Some 3%nat), inl []).
Proof.
  apply recv_raw_returns_empty. by_evaluation.
Defined.

(** C10: on a raw-l2 or raw-l3 connection, [recv] is a program without
    any library call: it touches no socket, so it returns the empty
    payload and raises nothing whatever [_sock] holds, [None] (before any
    [open]) and a closed socket included. *)
Theorem recv_raw_touches_no_socket errno W (env : handler W) (w : W)
    (self : SocketConnection) (max_bytes : Z) :
  proto self ∈ ["raw-l2"; "raw-l3"] ->
  recv errno max_bytes self = Ret (self, inl [])
  /\ calls (interp env (recv errno max_bytes self) w) = []
  /\ world (interp env (recv errno max_bytes self) w) = w
  /\ result_of (interp env (recv errno max_bytes self) w) = inl [].
Proof. intros H. rewrite recv_raw by exact H. repeat split. Qed.

Lemma recv_raw_touches_no_socket_witness :
  let self := sample_connection "raw-l2" None None in
  let env := sample_env (inr (other_error "Exception" "")) (inl tt) in
  _sock self = None
  /\ recv linux_errno 4096 self = Ret (self, inl [])
  /\ calls (interp env (recv linux_errno 4096 self) (sample_world0 [])) = []
  /\ world (interp env (recv linux_errno 4096 self) (sample_world0 []))
     = sample_world0 []
  /\ result_of (interp env (recv linux_errno 4096 self) (sample_world0 []))
     = inl [].
Proof.
  intros self env. split; [reflexivity |].
  apply recv_raw_touches_no_socket. by_evaluation.
Defined.

(** What [recv] does on a stream connection with a socket: one
    [recv] on it. *)
Lemma recv_stream errno W (env : handler W) (w : W) self max_bytes s :
  proto self ∈ ["tcp"; "ssl"] -> _sock self = Some s ->
  interp env (recv errno max_bytes self) w =
    {| outcome :=
         match fst (env _ (sock_recv s max_bytes) w) with
         | inl data => (self, inl data)
         | inr e => outcome (interp env (recv_except errno (LibraryError e) self)
                               (snd (env _ (sock_recv s max_bytes) w)))
         end;
       world := snd (env _ (sock_recv s max_bytes) w);
       calls := [AnyCall (sock_recv s max_bytes)] |}.
Proof.
  intros H Hs. destruct self; simpl in *. subst.
  kinds H; subst; run_method.
  all: destruct (env _ (sock_recv s max_bytes) w) as [[data | e] w']; cbn.
  all: try reflexivity.
  all: destruct e as [cls en message | cls message]; [| reflexivity].
  all: rewrite recv_except_socket_error; reflexivity.
Qed.

(** The same on a udp connection with a bind pair: one [recvfrom]. *)
Lemma recv_datagram errno W (env : handler W) (w : W) self max_bytes s b :
  proto self = "udp" -> bind self = Some b -> _sock self = Some s ->
  interp env (recv errno max_bytes self) w =
    {| outcome :=
         match fst (env _ (sock_recvfrom s max_bytes) w) with
         | inl r => (self, inl (fst r))
         | inr e => outcome (interp env (recv_except errno (LibraryError e) self)
                               (snd (env _ (sock_recvfrom s max_bytes) w)))
         end;
       world := snd (env _ (sock_recvfrom s max_bytes) w);
       calls := [AnyCall (sock_recvfrom s max_bytes)] |}.
Proof.
  intros H Hb Hs. destruct self; simpl in *. subst. run_method.
  destruct (env _ (sock_recvfrom s max_bytes) w) as [[data | e] w']; cbn;
    [reflexivity |].
  destruct e as [cls en message | cls message]; [| reflexivity].
  rewrite recv_except_socket_error. reflexivity.
Qed.

(** C1: on a connection that supports receive (tcp, ssl, or udp with a
    bind pair) and has a socket, when the socket read of
    [recv(max_bytes)] raises a socket error, [recv] returns the empty
    payload if the error is a timeout or its errno is one of
    ECONNABORTED, ECONNREFUSED, ECONNRESET, ENETRESET, ETIMEDOUT, and
    otherwise raises that very error; the connection is left as it was. *)
Theorem recv_absorbs_or_propagates errno W (env : handler W) (w : W)
    (self : SocketConnection) (max_bytes : Z) (s : handle)
    (cls : socket_error_class) (en : option Z) (message : string) :
  _sock self = Some s ->
  (proto self ∈ ["tcp"; "ssl"]
   /\ fst (env _ (sock_recv s max_bytes) w)
      = inr (socket_error cls en message))
  \/ (proto self = "udp" /\ bind self <> None
      /\ fst (env _ (sock_recvfrom s max_bytes) w)
         = inr (socket_error cls en message)) ->
  outcome (interp env (recv errno max_bytes self) w) =
    (self,
     if absorbed_by_recv errno cls en then inl []
     else inr (LibraryError (socket_error cls en message))).
Proof.
  intros Hs [[Hk He] | (Hk & Hb & He)].
  - rewrite (recv_stream _ _ _ _ _ _ s) by assumption. cbn [outcome].
    rewrite He, recv_except_socket_error. reflexivity.
  - destruct (bind self) as [b |] eqn:Eb; [| contradiction].
    rewrite (recv_datagram _ _ _ _ _ _ s b) by assumption. cbn [outcome].
    rewrite He, recv_except_socket_error. reflexivity.
Qed.

Lemma recv_absorbs_or_propagates_witness :
  let tcp := sample_connection "tcp" None (Some 3%nat) in
  let udp := sample_connection "udp" (Some ("127.0.0.1", 9999)) (Some 3%nat) in
  let timed_out := socket_error cls_timeout None "timed out" in
  let reset := socket_error cls_error (Some 104) "" in
  let broken_pipe := socket_error cls_error (Some 32) "" in
  outcome (interp (sample_env (inr timed_out) (inl tt))
             (recv linux_errno 1024 tcp) (sample_world0 []))
  = (tcp, inl [])
  /\ outcome (interp (sample_env (inr reset) (inl tt))
                (recv linux_errno 1024 udp) (sample_world0 []))
     = (udp, inl [])
  /\ outcome (interp (sample_env (inr broken_pipe) (inl tt))
                (recv linux_errno 1024 tcp) (sample_world0 []))
     = (tcp, inr (LibraryError broken_pipe)).
Proof.
  intros tcp udp timed_out reset broken_pipe. split; [| split].
  - apply (recv_absorbs_or_propagates linux_errno _ _ _ tcp 1024 3%nat
             cls_timeout None "timed out"); [reflexivity |].
    left. split; [by_evaluation | reflexivity].
  - apply (recv_absorbs_or_propagates linux_errno _ _ _ udp 1024 3%nat
             cls_error (Some 104) ""); [reflexivity |].
    right. split; [reflexivity | split; [discriminate | reflexivity]].
  - apply (recv_absorbs_or_propagates linux_errno _ _ _ tcp 1024 3%nat
             cls_error (Some 32) ""); [reflexivity |].
    left. split; [by_evaluation | reflexivity].
Defined.

(** C5: on a udp connection without a bind pair, [recv] raises the
    receive-not-supported error ([SullyRuntimeError]) with no library
    call at all; with a bind pair and a socket it makes exactly one
    [recvfrom(max_bytes)] on that socket and returns the payload of the
    datagram read. *)
Theorem recv_udp_needs_bind errno W (env : handler W) (w : W)
    (self : SocketConnection) (max_bytes : Z) :
  proto self = "udp" ->
  (bind self = None ->
   interp env (recv errno max_bytes self) w =
     {| outcome :=
          (self,
           inr (SullyRuntimeError
                  ("SocketConnection.recv() for UDP requires a bind address/port."
                   +:+ " Current value:")));
        world := w;
        calls := [] |})
  /\ (forall b s,
        bind self = Some b -> _sock self = Some s ->
        calls (interp env (recv errno max_bytes self) w)
          = [AnyCall (sock_recvfrom s max_bytes)]
        /\ forall data addr,
             fst (env _ (sock_recvfrom s max_bytes) w) = inl (data, addr) ->
             outcome (interp env (recv errno max_bytes self) w)
               = (self, inl data)).
Proof.
  intros Hk. split.
  - intros Hb. destruct self; simpl in *. subst. reflexivity.
  - intros b s Hb Hs. rewrite (recv_datagram _ _ _ _ _ _ s b) by assumption.
    split; [reflexivity |]. intros data addr He. cbn [outcome].
    rewrite He. reflexivity.
Qed.

Lemma recv_udp_needs_bind_witness :
  let env := sample_env (inl [Byte.x70; Byte.x6f; Byte.x6e; Byte.x67]) (inl tt) in
  let unbound := sample_connection "udp" None (Some 3%nat) in
  let bound := sample_connection "udp" (Some ("127.0.0.1", 9999)) (Some 3%nat) in
  interp env (recv linux_errno 1024 unbound) (sample_world0 []) =
    {| outcome :=
         (unbound,
          inr (SullyRuntimeError
                 ("SocketConnection.recv() for UDP requires a bind address/port."
                  +:+ " Current value:")));
       world := sample_world0 [];
       calls := [] |}
  /\ calls (interp env (recv linux_errno 1024 bound) (sample_world0 []))
     = [AnyCall (sock_recvfrom 3%nat 1024)]
  /\ outcome (interp env (recv linux_errno 1024 bound) (sample_world0 []))
     = (bound, inl [Byte.x70; Byte.x6f; Byte.x6e; Byte.x67]).
Proof.
  intros env unbound bound. split; [| split].
  - apply (proj1 (recv_udp_needs_bind linux_errno _ env (sample_world0 [])
                    unbound 1024 eq_refl)).
    reflexivity.
  - apply (proj2 (recv_udp_needs_bind linux_errno _ env (sample_world0 [])
                    bound 1024 eq_refl) ("127.0.0.1", 9999) 3%nat);
      reflexivity.
  - apply (proj2 (proj2 (recv_udp_needs_bind linux_errno _ env
                           (sample_world0 []) bound 1024 eq_refl)
                    ("127.0.0.1", 9999) 3%nat eq_refl eq_refl)
             _ ("127.0.0.1", 8888)).
    reflexivity.
Defined.

(** ** [open] *)

Lemma errno_is_decide (en : option Z) (c : Z) :
  errno_is en c = bool_decide (en = Some c).
Proof.
  destruct en as [n |]; cbn [errno_is].
  - destruct (Z.eqb_spec n c) as [-> | Hne].
    + symmetry. apply bool_decide_eq_true_2. reflexivity.
    + symmetry. apply bool_decide_eq_false_2. congruence.
  - symmetry. apply bool_decide_eq_false_2. discriminate.
Qed.

(** C7: on a tcp or ssl connection, once the socket is created and its
    timeout set, a [connect] that raises a socket error with errno
    ECONNREFUSED makes [open] raise the connection-refused error of the
    class ([BoofuzzTargetConnectionFailedError]); a [connect] that raises
    a socket error with any other errno, or none, makes [open] raise that
    very error. *)
Theorem open_connect_errors errno W (env : handler W) (w w1 w2 : W)
    (self : SocketConnection) (s : handle)
    (cls : socket_error_class) (en : option Z) (message : string) :
  proto self ∈ ["tcp"; "ssl"] ->
  env _ (socket_socket AF_INET SOCK_STREAM) w = (inl s, w1) ->
  env _ (sock_settimeout s (timeout self)) w1 = (inl tt, w2) ->
  fst (env _ (sock_connect s (host self, port self)) w2)
    = inr (socket_error cls en message) ->
  result_of (interp env (open errno self) w) =
    inr (if bool_decide (en = Some errno.(ECONNREFUSED))
         then BoofuzzTargetConnectionFailedError message
         else LibraryError (socket_error cls en message)).
Proof.
  intros Hk H1 H2 H3. rewrite <- errno_is_decide.
  destruct self; simpl in *.
  kinds Hk; subst; unfold result_of; run_method.
  all: rewrite H1; cbn; rewrite H2; cbn.
  all: destruct (env _ (sock_connect s _) w2) as [r w3]; simpl in H3; subst r.
  all: cbn; destruct (errno_is en _); reflexivity.
Qed.

Lemma open_connect_errors_witness :
  let refused := socket_error cls_error (Some 111) "" in
  let unreachable := socket_error cls_error (Some 113) "" in
  result_of (interp (sample_env (inl []) (inr refused))
               (open linux_errno (sample_connection "tcp" None None))
               (sample_world0 []))
  = inr (BoofuzzTargetConnectionFailedError "")
  /\ result_of (interp (sample_env (inl []) (inr unreachable))
                  (open linux_errno (sample_connection "ssl" None None))
                  (sample_world0 []))
     = inr (LibraryError unreachable).
Proof.
  intros refused unreachable. split.
  - apply (open_connect_errors linux_errno _
             (sample_env (inl []) (inr refused)) (sample_world0 [])
             {| next_handle := 4; udp_sizes := [] |}
             {| next_handle := 4; udp_sizes := [] |}
             (sample_connection "tcp" None None) 3%nat
             cls_error (Some 111) "");
      [by_evaluation | reflexivity | reflexivity | reflexivity].
  - apply (open_connect_errors linux_errno _
             (sample_env (inl []) (inr unreachable)) (sample_world0 [])
             {| next_handle := 4; udp_sizes := [] |}
             {| next_handle := 4; udp_sizes := [] |}
             (sample_connection "ssl" None None) 3%nat
             cls_error (Some 113) "");
      [by_evaluation | reflexivity | reflexivity | reflexivity].
Defined.

(** ** [send] *)

Lemma slice_to_nonneg (n : Z) (data : bytes) :
  0 <= n ->
  slice_to n data = take (Z.to_nat (Z.min (Z.of_nat (length data)) n)) data.
Proof.
  intros Hn. unfold slice_to.
  destruct (Z.leb_spec 0 n) as [_ | Hlt]; [| lia].
  destruct (Z.le_gt_cases n (Z.of_nat (length data))) as [Hle | Hgt].
  - rewrite Z.min_r by exact Hle. reflexivity.
  - rewrite Z.min_l by lia. rewrite Nat2Z.id.
    rewrite !take_ge by lia. reflexivity.
Qed.

(** The fixed entries of the table in every class state that arises. *)
Lemma class_reachable_lookup U cls :
  class_reachable U cls ->
  cls.(MAX_PAYLOADS) !! "raw-l2" = Some 1514
  /\ cls.(MAX_PAYLOADS) !! "raw-l3" = Some 1500
  /\ cls.(MAX_PAYLOADS) !! "tcp" = None
  /\ cls.(MAX_PAYLOADS) !! "ssl" = None.
Proof.
  induction 1 as [| cls size _ IH].
  - unfold class_body. cbn [MAX_PAYLOADS].
    repeat split; simplify_map_eq; reflexivity.
  - unfold setitem_MAX_PAYLOADS. cbn [MAX_PAYLOADS].
    rewrite !lookup_insert_ne by discriminate. exact IH.
Qed.

(** What [send] does with a socket at hand: one write of the sliced
    payload. *)
Lemma send_calls W (env : handler W) (w : W) cls self data s :
  proto self ∈ _PROTOCOLS -> _sock self = Some s ->
  omap written (calls (interp env (send cls data self) w)) =
    [match cls.(MAX_PAYLOADS) !! proto self with
     | Some n => slice_to n data
     | None => data
     end]
  /\ length (calls (interp env (send cls data self) w)) = 1%nat.
Proof.
  intros Hk Hs. destruct self; simpl in *. subst.
  kinds Hk; subst; unfold send, and_then, get; cbn [prog_bind fst snd proto].
  all: match goal with
       | |- context [MAX_PAYLOADS ?c !! ?k] =>
           generalize (MAX_PAYLOADS c !! k); intros entry
       end.
  all: run_method; split; reflexivity.
Qed.

(** C2: for a connection of a supported kind with a socket, in a class
    state that arises, with a non-negative ceiling for its kind, [send]
    makes exactly one library call, a socket write, and hands it the first
    [min(len(data), ceiling)] bytes of [data] when the kind is udp, raw-l2
    or raw-l3 (ceiling 1514 for raw-l2, 1500 for raw-l3, the stored
    platform value for udp) and [data] itself when the kind is tcp or
    ssl. *)
Theorem send_hands_payload_up_to_ceiling U W (env : handler W) (w : W)
    (cls : class_attrs) (self : SocketConnection) (data : bytes) (s : handle) :
  class_reachable U cls ->
  proto self ∈ _PROTOCOLS ->
  _sock self = Some s ->
  (forall ceiling, cls.(MAX_PAYLOADS) !! proto self = Some ceiling ->
                   0 <= ceiling) ->
  omap written (calls (interp env (send cls data self) w))
    = [spec_payload cls (proto self) data]
  /\ length (calls (interp env (send cls data self) w)) = 1%nat.
Proof.
  intros Hcls Hk Hs Hpos.
  destruct (send_calls _ env w cls self data s Hk Hs) as [Hw Hn].
  split; [| exact Hn]. rewrite Hw. f_equal.
  destruct (class_reachable_lookup U cls Hcls) as (Hl2 & Hl3 & Htcp & Hssl).
  unfold spec_payload, spec_ceiling.
  kinds Hk; rewrite Hk in *; cbn [String.eqb Ascii.eqb Bool.eqb andb].
  - rewrite Htcp. reflexivity.
  - rewrite Hssl. reflexivity.
  - destruct (MAX_PAYLOADS cls !! "udp") as [v |] eqn:Ev; [| reflexivity].
    apply slice_to_nonneg, Hpos. reflexivity.
  - rewrite Hl2. apply slice_to_nonneg. lia.
  - rewrite Hl3. apply slice_to_nonneg. lia.
Qed.


Lemma send_hands_payload_up_to_ceiling_witness :
  let cls := setitem_MAX_PAYLOADS "udp" 4 (class_body 65535) in
  let self := sample_connection "udp" None (Some 3%nat) in
  let data := [Byte.x61; Byte.x62; Byte.x63; Byte.x64; Byte.x65; Byte.x66] in
  let r := interp (sample_env (inl []) (inl tt)) (send cls data self)
             (sample_world0 []) in
  spec_payload cls "udp" data = [Byte.x61; Byte.x62; Byte.x63; Byte.x64]
  /\ omap written (calls r) = [spec_payload cls (proto self) data]
  /\ length (calls r) = 1%nat.
Proof.
  intros cls self data r. split; [reflexivity |].
  apply (send_hands_payload_up_to_ceiling 65535 _ _ _ cls self data 3%nat).
  - apply reach_init, reach_body.
  - by_evaluation.
  - reflexivity.
  - intros ceiling H. vm_compute in H. injection H as <-. lia.
Defined.

(** ** Construction *)

(** [__init__] queries the platform once, stores the answer in the
    shared table, and then validates its arguments. *)
Lemma init_run W (env : handler W) (w : W) (cls : class_attrs)
    host_ port_ proto_ bind_ timeout_ ethernet_proto_ l2_dst_ :
  interp env
    (__init__ host_ port_ proto_ bind_ timeout_ ethernet_proto_ l2_dst_ cls) w
  = {| outcome :=
         match fst (env _ helpers_get_max_udp_size w) with
         | inl size =>
             (setitem_MAX_PAYLOADS "udp" size cls,
              if negb (bool_decide (lower proto_ ∈ _PROTOCOLS)) then
                inr (SullyRuntimeError
                       ("INVALID PROTOCOL SPECIFIED: " +:+ lower proto_))
              else if bool_decide (lower proto_ ∈ _PROTOCOLS_PORT_REQUIRED)
                      && bool_decide (port_ = None) then
                inr (ValueError
                       ("__init__() argument port required for protocol "
                        +:+ lower proto_))
              else
                inl {| host := host_; port := port_; bind := bind_;
                       timeout := timeout_; proto := lower proto_;
                       ethernet_proto := ethernet_proto_; l2_dst := l2_dst_;
                       _sock := None |})
         | inr e => (cls, inr (LibraryError e))
         end;
       world := snd (env _ helpers_get_max_udp_size w);
       calls := [AnyCall helpers_get_max_udp_size] |}.
Proof.
  unfold __init__, and_then, lib, modify. cbn.
  destruct (env _ helpers_get_max_udp_size w) as [[size | e] w']; cbn;
    [| reflexivity].
  destruct (bool_decide (lower proto_ ∈ _PROTOCOLS)); cbn; [| reflexivity].
  destruct (bool_decide (lower proto_ ∈ _PROTOCOLS_PORT_REQUIRED)); cbn;
    [| reflexivity].
  destruct (bool_decide (port_ = None)); reflexivity.
Qed.

(** [str.lower] as the class uses it is the lowercase form: it maps
    each of the 26 uppercase letters to its lowercase letter and keeps
    every other character. *)
Lemma lower_ascii_lowercase (a : ascii) : lower_ascii a = lowercase_letter a.
Proof. destruct a as [[] [] [] [] [] [] [] []]; reflexivity. Qed.

Lemma lower_lowercase (s : string) : lower s = lowercase s.
Proof.
  induction s as [| a s IH]; cbn [lower lowercase].
  - reflexivity.
  - rewrite lower_ascii_lowercase, IH. reflexivity.
Qed.

(** C3, as stated, fails.  The platform query runs before the
    validation: when it raises, construction with the unsupported kind
    gopher raises the exception of the query, not the invalid-protocol
    error.  And a casing variant of a supported kind does not construct
    when its port is missing: TCP without a port raises the missing-port
    error, as tcp does. *)
Lemma construction_not_decided_by_proto_alone :
  let env := sample_env (inl []) (inl tt) in
  ~ unsupported_proto_raises_invalid
  /\ ~ supported_proto_constructs
  /\ result_of (interp env
       (__init__ "127.0.0.1" (Some 70) "gopher" default_bind default_timeout
          default_ethernet_proto default_l2_dst (class_body 65535))
       (sample_world0 []))
     = inr (LibraryError (other_error "Exception" "Unknown platform!"))
  /\ result_of (interp env
       (__init__ "127.0.0.1" None "TCP" default_bind default_timeout
          default_ethernet_proto default_l2_dst (class_body 65535))
       (sample_world0 [65507]))
     = inr (ValueError "__init__() argument port required for protocol tcp").
Proof.
  intros env. split; [| split; [| split; reflexivity]].
  - intros H.
    specialize (H _ env (sample_world0 []) (class_body 65535)
                  "127.0.0.1" (Some 70) "gopher" default_bind default_timeout
                  default_ethernet_proto default_l2_dst).
    assert (Hk : lowercase "gopher" ∉ ["tcp"; "ssl"; "udp"; "raw-l2"; "raw-l3"])
      by by_evaluation.
    specialize (H Hk). vm_compute in H. discriminate H.
  - intros H.
    specialize (H _ env (sample_world0 [65507]) (class_body 65535)
                  "127.0.0.1" None "TCP" default_bind default_timeout
                  default_ethernet_proto default_l2_dst).
    assert (Hk : lowercase "TCP" ∈ ["tcp"; "ssl"; "udp"; "raw-l2"; "raw-l3"])
      by by_evaluation.
    destruct (H Hk) as [self Hself]. vm_compute in Hself. discriminate Hself.
Qed.

(** C3, amended: when the platform query returns, construction with a
    [proto] whose lowercase form is none of tcp, ssl, udp, raw-l2, raw-l3
    raises the invalid-protocol error ([SullyRuntimeError]) naming that
    lowercase form; construction with any spelling of [proto] is the same
    program as construction with its lowercase form; and construction
    with a spelling of a supported kind succeeds, with the lowercase kind
    stored, when a port is given or the kind is not tcp, ssl or udp. *)
Theorem init_proto_case_insensitive W (env : handler W) (w w' : W)
    (cls : class_attrs) (size : Z) host_ port_ proto_ bind_ timeout_
    ethernet_proto_ l2_dst_ :
  env _ helpers_get_max_udp_size w = (inl size, w') ->
  (lowercase proto_ ∉ ["tcp"; "ssl"; "udp"; "raw-l2"; "raw-l3"] ->
   result_of (interp env
     (__init__ host_ port_ proto_ bind_ timeout_ ethernet_proto_ l2_dst_ cls) w)
   = inr (SullyRuntimeError
            ("INVALID PROTOCOL SPECIFIED: " +:+ lowercase proto_)))
  /\ __init__ host_ port_ proto_ bind_ timeout_ ethernet_proto_ l2_dst_
     = __init__ host_ port_ (lowercase proto_) bind_ timeout_ ethernet_proto_
         l2_dst_
  /\ (lowercase proto_ ∈ ["tcp"; "ssl"; "udp"; "raw-l2"; "raw-l3"] ->
      (lowercase proto_ ∈ ["tcp"; "ssl"; "udp"] -> port_ <> None) ->
      result_of (interp env
        (__init__ host_ port_ proto_ bind_ timeout_ ethernet_proto_ l2_dst_
           cls) w)
      = inl {| host := host_; port := port_; bind := bind_;
               timeout := timeout_; proto := lowercase proto_;
               ethernet_proto := ethernet_proto_; l2_dst := l2_dst_;
               _sock := None |}).
Proof.
  intros Henv. rewrite <- !lower_lowercase. split; [| split].
  - intros Hk. rewrite init_run. unfold result_of. cbn [outcome].
    rewrite Henv. cbn [fst snd].
    rewrite bool_decide_eq_false_2 by exact Hk. reflexivity.
  - unfold __init__. rewrite lower_idempotent. reflexivity.
  - intros Hk Hport. rewrite init_run. unfold result_of. cbn [outcome].
    rewrite Henv. cbn [fst snd].
    rewrite (bool_decide_eq_true_2 _ Hk). cbn [negb].
    destruct (bool_decide (lower proto_ ∈ _PROTOCOLS_PORT_REQUIRED)) eqn:Er;
      [| reflexivity].
    apply bool_decide_eq_true_1 in Er.
    rewrite bool_decide_eq_false_2 by (apply Hport, Er). reflexivity.
Qed.

Lemma init_proto_case_insensitive_witness :
  let env := sample_env (inl []) (inl tt) in
  let w := sample_world0 [65507] in
  let cls := class_body 65535 in
  result_of (interp env
    (__init__ "10.0.0.1" (Some 21) "FTP" default_bind default_timeout
       default_ethernet_proto default_l2_dst cls) w)
  = inr (SullyRuntimeError "INVALID PROTOCOL SPECIFIED: ftp")
  /\ __init__ "10.0.0.1" (Some 443) "SSL" default_bind default_timeout
       default_ethernet_proto default_l2_dst
     = __init__ "10.0.0.1" (Some 443) "ssl" default_bind default_timeout
         default_ethernet_proto default_l2_dst
  /\ result_of (interp env
       (__init__ "10.0.0.1" (Some 443) "Ssl" default_bind default_timeout
          default_ethernet_proto default_l2_dst cls) w)
     = inl {| host := "10.0.0.1"; port := Some 443; bind := None;
              timeout := default_timeout; proto := "ssl";
              ethernet_proto := default_ethernet_proto;
              l2_dst := default_l2_dst; _sock := None |}
  /\ result_of (interp env
       (__init__ "eth0" None "RAW-L2" default_bind default_timeout
          default_ethernet_proto default_l2_dst cls) w)
     = inl {| host := "eth0"; port := None; bind := None;
              timeout := default_timeout; proto := "raw-l2";
              ethernet_proto := default_ethernet_proto;
              l2_dst := default_l2_dst; _sock := None |}.
Proof.
  intros env w cls. split; [| split; [| split]].
  - apply (proj1 (init_proto_case_insensitive _ env w
                    {| next_handle := 3; udp_sizes := [] |} cls 65507
                    "10.0.0.1" (Some 21) "FTP" default_bind default_timeout
                    default_ethernet_proto default_l2_dst eq_refl)).
    by_evaluation.
  - apply (proj1 (proj2 (init_proto_case_insensitive _ env w
                           {| next_handle := 3; udp_sizes := [] |} cls 65507
                           "10.0.0.1" (Some 443) "SSL" default_bind
                           default_timeout default_ethernet_proto
                           default_l2_dst eq_refl))).
  - apply (proj2 (proj2 (init_proto_case_insensitive _ env w
                           {| next_handle := 3; udp_sizes := [] |} cls 65507
                           "10.0.0.1" (Some 443) "Ssl" default_bind
                           default_timeout default_ethernet_proto
                           default_l2_dst eq_refl))).
    + by_evaluation.
    + discriminate.
  - apply (proj2 (proj2 (init_proto_case_insensitive _ env w
                           {| next_handle := 3; udp_sizes := [] |} cls 65507
                           "eth0" None "RAW-L2" default_bind
                           default_timeout default_ethernet_proto
                           default_l2_dst eq_refl))).
    + by_evaluation.
    + intros Hk. exfalso. revert Hk. by_evaluation.
Defined.

(** Forget which entry of the table a goal looks up. *)
Ltac generalize_entry :=
  match goal with
  | |- context [MAX_PAYLOADS ?c !! ?k] =>
      generalize (MAX_PAYLOADS c !! k); intros ?
  end.

(** Case analysis on the answers of the environment to the calls in the
    goal. *)
Ltac answer_calls env :=
  repeat match goal with
  | |- context [env ?X ?c ?w0] =>
      destruct (env X c w0) as [[? | ?] ?]; cbn
  end.

(** The port plays no part in an operation on a raw connection. *)
Lemma raw_operation_ignores_port errno W (env : handler W) (w : W)
    (self : SocketConnection) (p : option Z) (op : operation) :
  proto self ∈ ["raw-l2"; "raw-l3"] ->
  calls (interp env (perform errno op (set_port p self)) w)
    = calls (interp env (perform errno op self) w)
  /\ world (interp env (perform errno op (set_port p self)) w)
     = world (interp env (perform errno op self) w)
  /\ result_of (interp env (perform errno op (set_port p self)) w)
     = result_of (interp env (perform errno op self) w)
  /\ state_of (interp env (perform errno op (set_port p self)) w)
     = set_port p (state_of (interp env (perform errno op self) w)).
Proof.
  intros Hk. destruct self as [h q b t k e l so]; simpl in *.
  unfold result_of, state_of, set_port.
  kinds Hk; subst; destruct op as [| | n | cls data];
    try (destruct b as [b |]); destruct so as [s |];
    unfold perform, send, and_then, get; cbn [prog_bind fst snd proto];
    try generalize_entry; run_method; answer_calls env;
    repeat split; reflexivity.
Qed.

(** C4, as stated, fails.  The platform query runs before the
    validation: when it raises, construction for udp without a port
    raises the exception of the query, not the missing-port error, and
    construction for raw-l2 does not succeed either. *)
Lemma port_check_follows_platform_query :
  let env := sample_env (inl []) (inl tt) in
  let failed := inr (LibraryError (other_error "Exception" "Unknown platform!"))
    : SocketConnection + exn in
  ~ missing_port_raises
  /\ ~ raw_proto_constructs
  /\ result_of (interp env
       (__init__ "127.0.0.1" None "udp" default_bind default_timeout
          default_ethernet_proto default_l2_dst (class_body 65535))
       (sample_world0 []))
     = failed
  /\ result_of (interp env
       (__init__ "eth0" None "raw-l2" default_bind default_timeout
          default_ethernet_proto default_l2_dst (class_body 65535))
       (sample_world0 []))
     = failed.
Proof.
  intros env failed. split; [| split; [| split; reflexivity]].
  - intros H.
    specialize (H _ env (sample_world0 []) (class_body 65535)
                  "127.0.0.1" "udp" default_bind default_timeout
                  default_ethernet_proto default_l2_dst).
    assert (Hk : lowercase "udp" ∈ ["tcp"; "ssl"; "udp"]) by by_evaluation.
    specialize (H Hk). vm_compute in H. discriminate H.
  - intros H.
    specialize (H _ env (sample_world0 []) (class_body 65535)
                  "eth0" None "raw-l2" default_bind default_timeout
                  default_ethernet_proto default_l2_dst).
    assert (Hk : lowercase "raw-l2" ∈ ["raw-l2"; "raw-l3"]) by by_evaluation.
    destruct (H Hk) as [self Hself]. vm_compute in Hself. discriminate Hself.
Qed.

(** C4, amended: when the platform query returns, construction for
    tcp, ssl or udp (in any spelling) without a port raises the
    missing-port error ([ValueError]) naming the kind; construction for
    raw-l2 or raw-l3 succeeds with any port, absent or not; and on a raw
    connection no later operation depends on the port: with another port
    every operation makes the same calls, returns or raises the same, and
    leaves the same connection up to the port. *)
Theorem init_port_requirement errno W (env : handler W) (w w' : W)
    (cls : class_attrs) (size : Z) host_ proto_ bind_ timeout_
    ethernet_proto_ l2_dst_ :
  env _ helpers_get_max_udp_size w = (inl size, w') ->
  (lowercase proto_ ∈ ["tcp"; "ssl"; "udp"] ->
   result_of (interp env
     (__init__ host_ None proto_ bind_ timeout_ ethernet_proto_ l2_dst_ cls) w)
   = inr (ValueError
            ("__init__() argument port required for protocol "
             +:+ lowercase proto_)))
  /\ (lowercase proto_ ∈ ["raw-l2"; "raw-l3"] ->
      forall port_,
        result_of (interp env
          (__init__ host_ port_ proto_ bind_ timeout_ ethernet_proto_ l2_dst_
             cls) w)
        = inl {| host := host_; port := port_; bind := bind_;
                 timeout := timeout_; proto := lowercase proto_;
                 ethernet_proto := ethernet_proto_; l2_dst := l2_dst_;
                 _sock := None |})
  /\ (forall V (env' : handler V) (v : V) (self : SocketConnection)
             (p : option Z) (op : operation),
        proto self ∈ ["raw-l2"; "raw-l3"] ->
        calls (interp env' (perform errno op (set_port p self)) v)
          = calls (interp env' (perform errno op self) v)
        /\ world (interp env' (perform errno op (set_port p self)) v)
           = world (interp env' (perform errno op self) v)
        /\ result_of (interp env' (perform errno op (set_port p self)) v)
           = result_of (interp env' (perform errno op self) v)
        /\ state_of (interp env' (perform errno op (set_port p self)) v)
           = set_port p (state_of (interp env' (perform errno op self) v))).
Proof.
  intros Henv. rewrite <- !lower_lowercase. split; [| split].
  - intros Hk. rewrite init_run. unfold result_of. cbn [outcome].
    rewrite Henv. cbn [fst snd].
    kinds Hk; rewrite Hk; eval_kinds; reflexivity.
  - intros Hk port_. rewrite init_run. unfold result_of. cbn [outcome].
    rewrite Henv. cbn [fst snd].
    kinds Hk; rewrite Hk; eval_kinds; reflexivity.
  - intros V env' v self p op Hk. apply raw_operation_ignores_port, Hk.
Qed.

Lemma init_port_requirement_witness :
  let env := sample_env (inl []) (inl tt) in
  let w := sample_world0 [65507] in
  let w' := {| next_handle := 3; udp_sizes := [] |} in
  let cls := class_body 65535 in
  let self := sample_connection "raw-l2" None (Some 3%nat) in
  let construct port_ proto_ :=
    result_of (interp env
      (__init__ "127.0.0.1" port_ proto_ default_bind default_timeout
         default_ethernet_proto default_l2_dst cls) w) in
  let missing kind :=
    inr (ValueError
           ("__init__() argument port required for protocol " +:+ kind))
    : SocketConnection + exn in
  construct None "tcp" = missing "tcp"
  /\ construct None "ssl" = missing "ssl"
  /\ construct None "UDP" = missing "udp"
  /\ construct (Some 7) "raw-l3"
     = inl {| host := "127.0.0.1"; port := Some 7; bind := None;
              timeout := default_timeout; proto := "raw-l3";
              ethernet_proto := default_ethernet_proto;
              l2_dst := default_l2_dst; _sock := None |}
  /\ construct None "raw-l2"
     = inl {| host := "127.0.0.1"; port := None; bind := None;
              timeout := default_timeout; proto := "raw-l2";
              ethernet_proto := default_ethernet_proto;
              l2_dst := default_l2_dst; _sock := None |}
  /\ calls (interp env
       (perform linux_errno (op_send cls [Byte.x00]) (set_port (Some 9) self))
       w)
     = calls (interp env (perform linux_errno (op_send cls [Byte.x00]) self) w).
Proof.
  intros env w w' cls self construct missing.
  pose proof (fun proto_ =>
    init_port_requirement linux_errno _ env w w' cls 65507 "127.0.0.1"
      proto_ default_bind default_timeout default_ethernet_proto
      default_l2_dst eq_refl) as H.
  split; [| split; [| split; [| split; [| split]]]].
  - apply (proj1 (H "tcp")). by_evaluation.
  - apply (proj1 (H "ssl")). by_evaluation.
  - apply (proj1 (H "UDP")). by_evaluation.
  - apply (proj1 (proj2 (H "raw-l3"))). by_evaluation.
  - apply (proj1 (proj2 (H "raw-l2"))). by_evaluation.
  - apply (proj2 (proj2 (H "raw-l2")) _ env w self (Some 9)
             (op_send cls [Byte.x00])).
    by_evaluation.
Defined.

(** ** The kind of a connection *)

(** Walk a program to each of its ends, by cases on the answers of the
    environment and on the tests of the [except] clauses. *)
Ltac walk :=
  cbn; unfold recv_except, open_except; cbn;
  lazymatch goal with
  | |- forall a : _ + lib_exn, _ => intros [? | ?]; walk
  | |- _ /\ _ => split; [reflexivity | discriminate]
  | |- context [match ?x with socket_error _ _ _ => _ | other_error _ _ => _ end] =>
      destruct x; walk
  | |- context [match ?x with cls_timeout => _ | _ => _ end] =>
      destruct x; walk
  | |- context [if ?c then _ else _] => destruct c; walk
  end.

(** An operation leaves the kind alone and, on a supported kind, never
    ends in the invalid-protocol error. *)
Lemma perform_keeps_proto errno (op : operation) (self : SocketConnection) :
  proto self ∈ _PROTOCOLS ->
  leaves_all
    (fun sr => proto (fst sr) = proto self
               /\ snd sr <> inr (invalid_protocol self))
    (perform errno op self).
Proof.
  intros Hk. destruct self as [h q b t k e l so]; simpl in *.
  unfold _PROTOCOLS in Hk.
  kinds Hk; subst; destruct op as [| | n | cls data];
    try (destruct b as [b |]); destruct so as [s |];
    unfold perform, send, and_then, get; cbn [prog_bind fst snd proto];
    try generalize_entry; run_method; walk.
Qed.

Lemma invalid_protocol_proto (self self' : SocketConnection) :
  proto self' = proto self -> invalid_protocol self' = invalid_protocol self.
Proof. unfold invalid_protocol. intros ->. reflexivity. Qed.

(** The same over a whole session, by induction on its operations. *)
Lemma session_keeps_proto errno (ops : list operation) :
  forall self : SocketConnection,
    proto self ∈ _PROTOCOLS ->
    leaves_all
      (fun sr =>
         proto (fst sr) = proto self
         /\ exists rs,
              snd sr = inl rs
              /\ length rs = length ops
              /\ Forall (fun r => r <> inr (invalid_protocol self)) rs)
      (session errno ops self).
Proof.
  induction ops as [| op ops IH]; intros self Hk.
  - cbn. split; [reflexivity |]. exists []. repeat split. constructor.
  - cbn [session]. unfold and_then at 1. unfold attempt.
    apply leaves_all_bind, leaves_all_bind.
    eapply leaves_all_impl; [| apply (perform_keeps_proto errno op self Hk)].
    intros [self1 r] [Hp Hr]. cbn [fst snd] in *. cbn [leaves_all fst snd].
    unfold and_then. apply leaves_all_bind.
    assert (Hk1 : proto self1 ∈ _PROTOCOLS) by (rewrite Hp; exact Hk).
    eapply leaves_all_impl; [| apply (IH self1 Hk1)].
    intros [self2 rs'] [Hp2 (rs & Hrs & Hlen & Hall)].
    cbn [fst snd] in *. subst rs'. cbn.
    split; [congruence |]. exists (r :: rs). repeat split.
    + cbn. rewrite Hlen. reflexivity.
    + constructor; [exact Hr |].
      rewrite <- (invalid_protocol_proto self self1 Hp). exact Hall.
Qed.

(** C8: the kind stored by a successful construction is one of tcp,
    ssl, udp, raw-l2, raw-l3, in lowercase; no sequence of [open],
    [close], [recv] and [send] on the connection changes it; and none of
    these operations ends in the invalid-protocol error of its dispatch. *)
Theorem proto_fixed_after_construction errno W (env : handler W) (w : W)
    (cls cls' : class_attrs) (self : SocketConnection)
    host_ port_ proto_ bind_ timeout_ ethernet_proto_ l2_dst_ :
  outcome (interp env
    (__init__ host_ port_ proto_ bind_ timeout_ ethernet_proto_ l2_dst_ cls) w)
    = (cls', inl self) ->
  proto self ∈ _PROTOCOLS
  /\ lower (proto self) = proto self
  /\ forall V (env' : handler V) (v : V) (ops : list operation),
       proto (state_of (interp env' (session errno ops self) v)) = proto self
       /\ exists rs,
            result_of (interp env' (session errno ops self) v) = inl rs
            /\ length rs = length ops
            /\ Forall (fun r => r <> inr (invalid_protocol self)) rs.
Proof.
  intros Hinit. rewrite init_run in Hinit. cbn [outcome] in Hinit.
  destruct (fst (env _ helpers_get_max_udp_size w)) as [size | e];
    [| discriminate].
  destruct (bool_decide (lower proto_ ∈ _PROTOCOLS)) eqn:Ek;
    cbn [negb] in Hinit; [| discriminate].
  apply bool_decide_eq_true_1 in Ek.
  destruct (bool_decide (lower proto_ ∈ _PROTOCOLS_PORT_REQUIRED)
            && bool_decide (port_ = None)); [discriminate |].
  injection Hinit as _ Hself.
  assert (Hp : proto self = lower proto_) by (rewrite <- Hself; reflexivity).
  assert (Hk : proto self ∈ _PROTOCOLS) by (rewrite Hp; exact Ek).
  split; [exact Hk |]. split; [rewrite Hp; apply lower_idempotent |].
  intros V env' v ops.
  apply (interp_leaves _ env' _ v (session_keeps_proto errno ops self Hk)).
Qed.

Lemma proto_fixed_after_construction_witness :
  let self :=
    {| host := "127.0.0.1"; port := Some 8888; bind := None;
       timeout := default_timeout; proto := "udp";
       ethernet_proto := default_ethernet_proto; l2_dst := default_l2_dst;
       _sock := None |} in
  let ops := [op_recv 16; op_open; op_send (class_body 65535) [Byte.x00];
              op_recv 16; op_close] in
  let env' := sample_env (inl []) (inl tt) in
  proto self ∈ _PROTOCOLS
  /\ lower (proto self) = proto self
  /\ proto (state_of (interp env' (session linux_errno ops self)
                        (sample_world0 []))) = proto self
  /\ exists rs,
       result_of (interp env' (session linux_errno ops self)
                    (sample_world0 [])) = inl rs
       /\ length rs = length ops
       /\ Forall (fun r => r <> inr (invalid_protocol self)) rs.
Proof.
  intros self ops env'.
  pose proof (proto_fixed_after_construction linux_errno _
                (sample_env (inl []) (inl tt)) (sample_world0 [65507])
                (class_body 65535)
                (setitem_MAX_PAYLOADS "udp" 65507 (class_body 65535)) self
                "127.0.0.1" (Some 8888) "UDP" None default_timeout
                default_ethernet_proto default_l2_dst eq_refl)
    as (Hk & Hl & Hops).
  split; [exact Hk |]. split; [exact Hl |].
  exact (Hops _ env' (sample_world0 []) ops).
Defined.

(** ** The shared table of ceilings *)




(** * Further properties of the class *)

Lemma interp_calls_all {W R} (P : any_call -> Prop) (env : handler W)
    (t : prog R) (w : W) :
  calls_all P t -> Forall P (calls (interp env t w)).
Proof.
  revert w. induction t as [r | X c k IH]; intros w Ht; cbn.
  - constructor.
  - destruct Ht as [Hc Hk]. constructor; [exact Hc | apply IH, Hk].
Qed.

Lemma interp_calls_within {W R} (n : nat) (env : handler W) (t : prog R)
    (w : W) :
  calls_within n t -> (length (calls (interp env t w)) <= n)%nat.
Proof.
  revert n w. induction t as [r | X c k IH]; intros n w Ht; cbn.
  - lia.
  - destruct n as [| n]; [contradiction |].
    specialize (IH (fst (env X c w)) n (snd (env X c w)) (Ht _)). lia.
Qed.

(** Case analysis on a boolean test in the goal. *)
Ltac split_test :=
  match goal with
  | |- context [if ?c then _ else _] =>
      lazymatch type of c with bool => destruct c end
  end.

(** Walk a program of a connection whose kind, bind pair and socket are
    not known, by cases on every test on the way, and finish each end
    with [fin]. *)
Ltac walk_cases fin :=
  cbn; unfold recv_except, open_except; cbn;
  lazymatch goal with
  | |- forall a : _ + lib_exn, _ => intros [? | ?]; walk_cases fin
  | |- _ /\ (forall a : _ + lib_exn, _) =>
      split; [fin | walk_cases fin]
  | |- context [match ?x with
                | socket_error _ _ _ => _ | other_error _ _ => _ end] =>
      destruct x; walk_cases fin
  | |- context [match ?x with cls_timeout => _ | _ => _ end] =>
      destruct x; walk_cases fin
  | |- _ => first [split_test; walk_cases fin | fin]
  end.

Ltac expose_method :=
  unfold perform, send, and_then, get; cbn [prog_bind fst snd proto];
  try generalize_entry.

Ltac walk_any self fin :=
  destruct self as [? ? [?|] ? ? ? ? [?|]];
  expose_method; walk_cases fin.

(** [recv], [send] and [close] leave every attribute of the
    connection as it is ([_sock] included: [close] does not forget the
    socket), whatever the kind, the socket and the environment, and
    however they end. *)
Lemma recv_send_close_keep_connection errno W (env : handler W) (w : W)
    (cls : class_attrs) (self : SocketConnection) (max_bytes : Z)
    (data : bytes) :
  state_of (interp env (recv errno max_bytes self) w) = self
  /\ state_of (interp env (send cls data self) w) = self
  /\ state_of (interp env (close self) w) = self.
Proof.
  unfold state_of. split; [| split];
    apply (interp_leaves (fun sr => fst sr = self));
    walk_any self ltac:(idtac; reflexivity).
Qed.

(** [open] changes no attribute but [_sock], however it ends: the
    connection it leaves is the one it found, or that one with a new
    socket. *)
Lemma open_changes_only_sock errno W (env : handler W) (w : W)
    (self : SocketConnection) :
  state_of (interp env (open errno self) w) = self
  \/ exists s, state_of (interp env (open errno self) w) = set_sock s self.
Proof.
  unfold state_of.
  apply (interp_leaves
           (fun sr => fst sr = self \/ exists s, fst sr = set_sock s self)).
  walk_any self
    ltac:(idtac; first [left; reflexivity | right; eexists; reflexivity]).
Qed.


(** X2: [recv], [send] and [close] make at most one library call each,
    and [open] at most five, whatever the connection and the
    environment. *)
Theorem calls_per_operation errno W (env : handler W) (w : W)
    (cls : class_attrs) (self : SocketConnection) (max_bytes : Z)
    (data : bytes) :
  (length (calls (interp env (recv errno max_bytes self) w)) <= 1)%nat
  /\ (length (calls (interp env (send cls data self) w)) <= 1)%nat
  /\ (length (calls (interp env (close self) w)) <= 1)%nat
  /\ (length (calls (interp env (open errno self) w)) <= 5)%nat.
Proof.
  split; [| split; [| split]]; apply interp_calls_within;
    walk_any self ltac:(idtac; exact I).
Qed.

(** The tests of the dispatch on a kind that is not supported. *)
Lemma unsupported_tests (k : string) :
  k ∉ _PROTOCOLS ->
  String.eqb k "tcp" = false /\ String.eqb k "ssl" = false
  /\ String.eqb k "udp" = false /\ String.eqb k "raw-l2" = false
  /\ String.eqb k "raw-l3" = false
  /\ bool_decide (k ∈ ["tcp"; "ssl"]) = false
  /\ bool_decide (k ∈ ["raw-l2"; "raw-l3"]) = false.
Proof.
  intros Hk. unfold _PROTOCOLS in Hk.
  rewrite !not_elem_of_cons in Hk.
  destruct Hk as (H1 & H2 & H3 & H4 & H5 & _).
  repeat split; try (apply String.eqb_neq; assumption);
    apply bool_decide_eq_false_2; rewrite !not_elem_of_cons;
    repeat split; try assumption; apply not_elem_of_nil.
Qed.

(** On an unsupported kind every dispatch ends in its last branch. *)
Lemma dispatch_unsupported errno (cls : class_attrs)
    (self : SocketConnection) (max_bytes : Z) (data : bytes) :
  proto self ∉ _PROTOCOLS ->
  open errno self = Ret (self, inr (invalid_protocol self))
  /\ recv errno max_bytes self = Ret (self, inr (invalid_protocol self))
  /\ send cls data self = Ret (self, inr (invalid_protocol self)).
Proof.
  intros Hk.
  destruct (unsupported_tests _ Hk) as (H1 & H2 & H3 & H4 & H5 & H6 & H7).
  destruct self as [h q b t k e l so]. cbn [proto] in *.
  unfold open, recv, send, try_except, and_then, get.
  cbn [prog_bind fst snd proto].
  rewrite H1, H2, H3, H4, H5, H6, H7. repeat split.
Qed.

(** X3: on a connection whose kind is none of tcp, ssl, udp, raw-l2,
    raw-l3 (the attribute was assigned after construction), [open],
    [recv] and [send] raise the invalid-protocol error naming that kind:
    they make no library call and leave the connection as it is. *)
Theorem unsupported_kind_raises errno (cls : class_attrs)
    (self : SocketConnection) (max_bytes : Z) (data : bytes) :
  proto self ∉ _PROTOCOLS ->
  open errno self = Ret (self, inr (invalid_protocol self))
  /\ recv errno max_bytes self = Ret (self, inr (invalid_protocol self))
  /\ send cls data self = Ret (self, inr (invalid_protocol self)).
Proof. apply dispatch_unsupported. Qed.

Lemma unsupported_kind_raises_witness :
  let self := sample_connection "sctp" None (Some 3%nat) in
  open linux_errno self
    = Ret (self, inr (SullyRuntimeError "INVALID PROTOCOL SPECIFIED: sctp"))
  /\ recv linux_errno 16 self
     = Ret (self, inr (SullyRuntimeError "INVALID PROTOCOL SPECIFIED: sctp"))
  /\ send (class_body 65535) [Byte.x00] self
     = Ret (self, inr (SullyRuntimeError "INVALID PROTOCOL SPECIFIED: sctp")).
Proof.
  intros self.
  apply (unsupported_kind_raises linux_errno (class_body 65535) self 16
           [Byte.x00]).
  by_evaluation.
Defined.

(** X4: on a connection without a socket ([_sock] is [None], as after
    construction), [close], [send] on every supported kind, and [recv] on
    tcp, ssl and udp with a bind pair raise [AttributeError] for the
    method looked up on [None]; they make no library call, and [recv]
    does not turn this error into an empty payload. *)
Theorem operations_before_open errno (cls : class_attrs)
    (self : SocketConnection) (max_bytes : Z) (data : bytes) :
  proto self ∈ _PROTOCOLS ->
  _sock self = None ->
  close self = Ret (self, inr (AttributeError (no_attribute "close")))
  /\ send cls data self
     = Ret (self,
            inr (AttributeError
                   (no_attribute
                      (if bool_decide (proto self ∈ ["tcp"; "ssl"])
                       then "send" else "sendto"))))
  /\ (proto self ∈ ["tcp"; "ssl"] ->
      recv errno max_bytes self
      = Ret (self, inr (AttributeError (no_attribute "recv"))))
  /\ (proto self = "udp" -> bind self <> None ->
      recv errno max_bytes self
      = Ret (self, inr (AttributeError (no_attribute "recvfrom")))).
Proof.
  intros Hk Hs. destruct self as [h q b t k e l so]. cbn [proto _sock bind] in *.
  subst so. unfold _PROTOCOLS in Hk.
  split; [reflexivity |]. split; [| split].
  - kinds Hk; subst; unfold send, and_then, get;
      cbn [prog_bind fst snd proto]; generalize_entry;
      run_method; reflexivity.
  - intros Hk'. kinds Hk'; subst; unfold recv, try_except; run_method;
      reflexivity.
  - intros -> Hb. destruct b as [b |]; [| contradiction].
    reflexivity.
Qed.

Lemma operations_before_open_witness :
  let self := sample_connection "udp" (Some ("127.0.0.1", 9999)) None in
  close self = Ret (self, inr (AttributeError (no_attribute "close")))
  /\ send (class_body 65535) [Byte.x00] self
     = Ret (self, inr (AttributeError (no_attribute "sendto")))
  /\ recv linux_errno 16 self
     = Ret (self, inr (AttributeError (no_attribute "recvfrom"))).
Proof.
  intros self.
  pose proof (operations_before_open linux_errno (class_body 65535) self 16
                [Byte.x00]) as H.
  destruct H as (Hc & Hsend & _ & Hrecv); [by_evaluation | reflexivity |].
  split; [exact Hc |]. split; [exact Hsend |].
  apply Hrecv; [reflexivity | discriminate].
Defined.

(** A property of the calls of [open], from the supported kinds one by
    one; on any other kind [open] makes no call. *)
Lemma open_calls_all errno (P : SocketConnection -> any_call -> Prop) :
  (forall self, proto self ∈ _PROTOCOLS ->
                calls_all (P self) (open errno self)) ->
  forall W (env : handler W) (w : W) (self : SocketConnection),
    Forall (P self) (calls (interp env (open errno self) w)).
Proof.
  intros HP W env w self.
  destruct (decide (proto self ∈ _PROTOCOLS)) as [Hk | Hk].
  - apply interp_calls_all, HP, Hk.
  - destruct (dispatch_unsupported errno (Build_class_attrs ∅) self 0 []
                Hk) as [-> _].
    constructor.
Qed.

Ltac walk_kinds Hk self fin :=
  destruct self as [? ? [?|] ? ? ? ? [?|]]; cbn [proto] in Hk;
  unfold _PROTOCOLS in Hk; kinds Hk; subst;
  run_method; walk_cases fin.

(** X5: [open] connects only on tcp and ssl, and performs the SSL
    upgrade ([ssl.wrap_socket], [httplib.FakeSocket]) only on ssl: on
    udp, raw-l2 and raw-l3 it never connects, whatever the environment
    answers. *)
Theorem open_connects_only_streams errno W (env : handler W) (w : W)
    (self : SocketConnection) :
  Forall (fun c =>
            (is_connect c = true -> proto self ∈ ["tcp"; "ssl"])
            /\ (is_ssl_upgrade c = true -> proto self = "ssl"))
         (calls (interp env (open errno self) w)).
Proof.
  revert W env w self.
  apply (open_calls_all errno
           (fun self c =>
              (is_connect c = true -> proto self ∈ ["tcp"; "ssl"])
              /\ (is_ssl_upgrade c = true -> proto self = "ssl"))).
  intros self Hk.
  walk_kinds Hk self
    ltac:(idtac;
          first [exact I
                | split; intros H;
                  first [discriminate H | reflexivity | by_evaluation]]).
Qed.

(** X6: [open] binds a socket only on udp with a bind pair, and then to
    that pair; on every other kind a bind pair is never used to bind. *)
Theorem open_binds_only_udp errno W (env : handler W) (w : W)
    (self : SocketConnection) :
  Forall (fun c => forall addr,
            bound_to c = Some addr ->
            proto self = "udp" /\ bind self = Some addr)
         (calls (interp env (open errno self) w)).
Proof.
  revert W env w self.
  apply (open_calls_all errno
           (fun self c => forall addr,
              bound_to c = Some addr ->
              proto self = "udp" /\ bind self = Some addr)).
  intros self Hk.
  walk_kinds Hk self
    ltac:(idtac;
          first [exact I
                | intros addr H; cbn in H;
                  first [discriminate H
                        | injection H as <-; split; reflexivity]]).
Qed.

(** Case analysis on the answers of the environment and on the tests of
    the [except] clauses, until the run in the goal is settled. *)
Ltac settle_run env :=
  repeat first
    [ progress answer_calls env
    | progress (unfold recv_except, open_except; cbn)
    | match goal with
      | |- context [match ?x with
                    | socket_error _ _ _ => _ | other_error _ _ => _ end] =>
          destruct x; cbn
      end
    | match goal with
      | |- context [match ?x with cls_timeout => _ | _ => _ end] =>
          destruct x; cbn
      end
    | split_test; cbn ].

(** X7: on every supported kind, however [open] goes on, its first call
    creates the socket of the kind, and it creates no other socket. *)
Theorem open_creates_one_socket errno W (env : handler W) (w : W)
    (self : SocketConnection) :
  proto self ∈ _PROTOCOLS ->
  calls (interp env (open errno self) w)
    = AnyCall (socket_socket (fst (socket_of_kind (proto self)))
                 (snd (socket_of_kind (proto self))))
      :: tail (calls (interp env (open errno self) w))
  /\ omap created (tail (calls (interp env (open errno self) w))) = [].
Proof.
  intros Hk. destruct self as [h q b t k e l so]. cbn [proto] in *.
  unfold _PROTOCOLS in Hk.
  kinds Hk; subst; destruct b as [b |]; run_method; settle_run env;
    split; reflexivity.
Qed.

Lemma open_creates_one_socket_witness :
  let r := interp (sample_env (inl []) (inl tt))
            (open linux_errno (sample_connection "raw-l3" None None))
            (sample_world0 []) in
  calls r = AnyCall (socket_socket AF_PACKET SOCK_DGRAM) :: tail (calls r)
  /\ omap created (tail (calls r)) = [].
Proof.
  intros r.
  apply (open_creates_one_socket linux_errno _ _ _
           (sample_connection "raw-l3" None None)).
  by_evaluation.
Defined.

(** X8: on tcp, when the socket is created, its timeout set and the
    connect succeeds, [open] has made exactly these three calls, in this
    order and on the new socket, and the connection now holds that
    socket, whatever it held before. *)
Theorem open_tcp_connects errno W (env : handler W) (w w1 w2 w3 : W)
    (self : SocketConnection) (s : handle) :
  proto self = "tcp" ->
  env _ (socket_socket AF_INET SOCK_STREAM) w = (inl s, w1) ->
  env _ (sock_settimeout s (timeout self)) w1 = (inl tt, w2) ->
  env _ (sock_connect s (host self, port self)) w2 = (inl tt, w3) ->
  interp env (open errno self) w =
    {| outcome := (set_sock s self, inl tt);
       world := w3;
       calls := [AnyCall (socket_socket AF_INET SOCK_STREAM);
                 AnyCall (sock_settimeout s (timeout self));
                 AnyCall (sock_connect s (host self, port self))] |}.
Proof.
  intros Hk H1 H2 H3. destruct self as [h q b t k e l so]. cbn in *. subst.
  run_method. rewrite H1. cbn. rewrite H2. cbn. rewrite H3. reflexivity.
Qed.

Lemma open_tcp_connects_witness :
  let self := sample_connection "tcp" None (Some 1%nat) in
  interp (sample_env (inl []) (inl tt)) (open linux_errno self)
    (sample_world0 []) =
    {| outcome := (set_sock 3%nat self, inl tt);
       world := {| next_handle := 4; udp_sizes := [] |};
       calls := [AnyCall (socket_socket AF_INET SOCK_STREAM);
                 AnyCall (sock_settimeout 3%nat (timeout self));
                 AnyCall (sock_connect 3%nat (host self, port self))] |}.
Proof.
  intros self.
  apply (open_tcp_connects linux_errno _ _ (sample_world0 [])
           {| next_handle := 4; udp_sizes := [] |}
           {| next_handle := 4; udp_sizes := [] |}
           {| next_handle := 4; udp_sizes := [] |} self 3%nat);
    reflexivity.
Defined.

(** X9: on ssl, once the plain socket [s] is connected, [open] wraps
    it: when [ssl.wrap_socket] and [httplib.FakeSocket] return, the
    connection holds what [FakeSocket] returned; when either raises, the
    exception is raised as it is and the connection keeps the plain
    socket [s]. *)
Theorem open_ssl_upgrades errno W (env : handler W) (w w1 w2 w3 : W)
    (self : SocketConnection) (s : handle) :
  proto self = "ssl" ->
  env _ (socket_socket AF_INET SOCK_STREAM) w = (inl s, w1) ->
  env _ (sock_settimeout s (timeout self)) w1 = (inl tt, w2) ->
  env _ (sock_connect s (host self, port self)) w2 = (inl tt, w3) ->
  outcome (interp env (open errno self) w) =
    match env _ (ssl_wrap_socket (Some s)) w3 with
    | (inl ssl_sock, w4) =>
        match fst (env _ (httplib_FakeSocket (Some s) ssl_sock) w4) with
        | inl fake => (set_sock fake self, inl tt)
        | inr e => (set_sock s self, inr (LibraryError e))
        end
    | (inr e, _) => (set_sock s self, inr (LibraryError e))
    end.
Proof.
  intros Hk H1 H2 H3. destruct self as [h q b t k e l so]. cbn in *. subst.
  run_method. rewrite H1. cbn. rewrite H2. cbn. rewrite H3. cbn.
  destruct (env _ (ssl_wrap_socket (Some s)) w3) as [[ssl_sock | e'] w4]; cbn;
    [| reflexivity].
  destruct (env _ (httplib_FakeSocket (Some s) ssl_sock) w4)
    as [[fake | e'] w5]; reflexivity.
Qed.

Lemma open_ssl_upgrades_witness :
  let self := sample_connection "ssl" None None in
  outcome (interp (sample_env (inl []) (inl tt)) (open linux_errno self)
             (sample_world0 []))
  = (set_sock 4%nat self, inl tt).
Proof.
  intros self.
  apply (open_ssl_upgrades linux_errno _ (sample_env (inl []) (inl tt))
           (sample_world0 [])
           {| next_handle := 4; udp_sizes := [] |}
           {| next_handle := 4; udp_sizes := [] |}
           {| next_handle := 4; udp_sizes := [] |} self 3%nat);
    reflexivity.
Defined.

(** X10: on udp with a bind pair, [open] binds the new socket to that
    pair right after creating it and before setting its timeout; when the
    bind raises, [open] raises that exception, sets no timeout, and the
    connection holds the unbound socket. *)
Theorem open_udp_binds_first errno W (env : handler W) (w w1 : W)
    (self : SocketConnection) (s : handle) (b : string * Z) :
  proto self = "udp" ->
  bind self = Some b ->
  env _ (socket_socket AF_INET SOCK_DGRAM) w = (inl s, w1) ->
  interp env (open errno self) w =
    match env _ (sock_bind s b) w1 with
    | (inl _, w2) =>
        {| outcome :=
             (set_sock s self,
              match fst (env _ (sock_settimeout s (timeout self)) w2) with
              | inl _ => inl tt
              | inr e => inr (LibraryError e)
              end);
           world := snd (env _ (sock_settimeout s (timeout self)) w2);
           calls := [AnyCall (socket_socket AF_INET SOCK_DGRAM);
                     AnyCall (sock_bind s b);
                     AnyCall (sock_settimeout s (timeout self))] |}
    | (inr e, w2) =>
        {| outcome := (set_sock s self, inr (LibraryError e));
           world := w2;
           calls := [AnyCall (socket_socket AF_INET SOCK_DGRAM);
                     AnyCall (sock_bind s b)] |}
    end.
Proof.
  intros Hk Hb H1. destruct self as [h q b' t k e l so]. cbn in *. subst.
  run_method. rewrite H1. cbn.
  destruct (env _ (sock_bind s b) w1) as [[[] | e'] w2]; cbn; [| reflexivity].
  destruct (env _ (sock_settimeout s t) w2) as [[[] | e'] w3]; reflexivity.
Qed.

Lemma open_udp_binds_first_witness :
  let self := sample_connection "udp" (Some ("127.0.0.1", 9999)) None in
  interp (sample_env (inl []) (inl tt)) (open linux_errno self)
    (sample_world0 []) =
    {| outcome := (set_sock 3%nat self, inl tt);
       world := {| next_handle := 4; udp_sizes := [] |};
       calls := [AnyCall (socket_socket AF_INET SOCK_DGRAM);
                 AnyCall (sock_bind 3%nat ("127.0.0.1", 9999));
                 AnyCall (sock_settimeout 3%nat (timeout self))] |}.
Proof.
  intros self.
  apply (open_udp_binds_first linux_errno _ (sample_env (inl []) (inl tt))
           (sample_world0 []) {| next_handle := 4; udp_sizes := [] |}
           self 3%nat ("127.0.0.1", 9999));
    reflexivity.
Defined.

(** ** [send], [recv] and [close] on a socket *)

(** X11: on a supported kind with a socket, [send] makes one library
    call, a write of the sliced payload ([send] or [sendto]) on the socket
    the connection holds, and returns the count that write returned, be it
    less than the length of the payload; an exception of the write, a
    timeout or a reset included, is raised as it is: [send] absorbs none
    of the errors that [recv] absorbs. *)
Theorem send_returns_what_the_write_returns W (env : handler W) (w : W)
    (cls : class_attrs) (self : SocketConnection) (data : bytes)
    (s : handle) :
  proto self ∈ ["tcp"; "ssl"; "udp"; "raw-l2"; "raw-l3"] ->
  _sock self = Some s ->
  exists c : call Z,
    written (AnyCall c)
      = Some (match cls.(MAX_PAYLOADS) !! proto self with
              | Some n => slice_to n data
              | None => data
              end)
    /\ target (AnyCall c) = Some s
    /\ interp env (send cls data self) w =
         {| outcome :=
              (self,
               match fst (env _ c w) with
               | inl n => inl n
               | inr e => inr (LibraryError e)
               end);
            world := snd (env _ c w);
            calls := [AnyCall c] |}.
Proof.
  intros Hk Hs. destruct self as [h q b t k e l so]. cbn in Hk, Hs. subst so.
  kinds Hk; subst; unfold send, and_then, get; cbn [prog_bind fst snd proto];
    generalize_entry; run_method; eexists;
    (split; [| split; [| reflexivity]]); reflexivity.
Qed.

Lemma send_returns_what_the_write_returns_witness :
  let self := sample_connection "tcp" None (Some 3%nat) in
  let env := sample_env (inl []) (inl tt) in
  let data := [Byte.x00; Byte.x01] in
  exists c : call Z,
    written (AnyCall c)
      = Some (match (class_body 65535).(MAX_PAYLOADS) !! proto self with
              | Some n => slice_to n data
              | None => data
              end)
    /\ target (AnyCall c) = Some 3%nat
    /\ interp env (send (class_body 65535) data self) (sample_world0 []) =
         {| outcome :=
              (self,
               match fst (env _ c (sample_world0 [])) with
               | inl n => inl n
               | inr e => inr (LibraryError e)
               end);
            world := snd (env _ c (sample_world0 []));
            calls := [AnyCall c] |}.
Proof.
  intros self env data.
  apply (send_returns_what_the_write_returns _ env (sample_world0 [])
           (class_body 65535) self data 3%nat);
    [by_evaluation | reflexivity].
Defined.

Lemma slice_to_prefix (n : Z) (data : bytes) : slice_to n data `prefix_of` data.
Proof. unfold slice_to. destruct (0 <=? n); apply prefix_take. Qed.

(** X12: whatever the table of ceilings holds (an entry for tcp, a
    negative entry), the payload [send] hands to the write is a prefix of
    [data]: [send] never pads, reorders or rewrites the bytes. *)
Theorem send_writes_a_prefix W (env : handler W) (w : W)
    (cls : class_attrs) (self : SocketConnection) (data : bytes)
    (s : handle) :
  proto self ∈ _PROTOCOLS ->
  _sock self = Some s ->
  exists payload,
    omap written (calls (interp env (send cls data self) w)) = [payload]
    /\ payload `prefix_of` data.
Proof.
  intros Hk Hs.
  destruct (send_calls _ env w cls self data s Hk Hs) as [Hw _].
  eexists. split; [exact Hw |].
  destruct (MAX_PAYLOADS cls !! proto self) as [n |];
    [apply slice_to_prefix | reflexivity].
Qed.

Lemma send_writes_a_prefix_witness :
  let self := sample_connection "tcp" None (Some 3%nat) in
  let cls := setitem_MAX_PAYLOADS "tcp" (-1) (class_body 65535) in
  let data := [Byte.x61; Byte.x62; Byte.x63] in
  exists payload,
    omap written (calls (interp (sample_env (inl []) (inl tt))
                           (send cls data self) (sample_world0 [])))
      = [payload]
    /\ payload `prefix_of` data.
Proof.
  intros self cls data.
  apply (send_writes_a_prefix _ _ _ cls self data 3%nat);
    [by_evaluation | reflexivity].
Defined.

(** X13: on tcp and ssl with a socket, [recv] makes one [recv(max_bytes)]
    on that socket and returns the bytes read as they are; an empty read
    (the peer closed the stream) gives the same empty payload as an
    absorbed error. *)
Theorem recv_stream_returns_read W errno (env : handler W) (w : W)
    (self : SocketConnection) (max_bytes : Z) (s : handle) :
  proto self ∈ ["tcp"; "ssl"] ->
  _sock self = Some s ->
  calls (interp env (recv errno max_bytes self) w)
    = [AnyCall (sock_recv s max_bytes)]
  /\ forall data,
       fst (env _ (sock_recv s max_bytes) w) = inl data ->
       outcome (interp env (recv errno max_bytes self) w) = (self, inl data).
Proof.
  intros Hk Hs. rewrite (recv_stream _ _ _ _ _ _ s) by assumption.
  split; [reflexivity |]. intros data He. cbn [outcome]. rewrite He.
  reflexivity.
Qed.

Lemma recv_stream_returns_read_witness :
  let self := sample_connection "ssl" None (Some 3%nat) in
  let env := sample_env (inl [Byte.x4f; Byte.x4b]) (inl tt) in
  calls (interp env (recv linux_errno 512 self) (sample_world0 []))
    = [AnyCall (sock_recv 3%nat 512)]
  /\ outcome (interp env (recv linux_errno 512 self) (sample_world0 []))
     = (self, inl [Byte.x4f; Byte.x4b]).
Proof.
  intros self env.
  destruct (recv_stream_returns_read _ linux_errno env (sample_world0 [])
              self 512 3%nat) as [Hc Hd]; [by_evaluation | reflexivity |].
  split; [exact Hc |]. apply Hd. reflexivity.
Defined.

(** X14: an exception of the socket read that is not a [socket.error]
    is raised by [recv] as it is, on tcp, ssl and udp with a bind pair:
    only socket errors are ever turned into an empty payload. *)
Theorem recv_raises_other_exceptions errno W (env : handler W) (w : W)
    (self : SocketConnection) (max_bytes : Z) (s : handle)
    (cls message : string) :
  _sock self = Some s ->
  (proto self ∈ ["tcp"; "ssl"]
   /\ fst (env _ (sock_recv s max_bytes) w) = inr (other_error cls message))
  \/ (proto self = "udp" /\ bind self <> None
      /\ fst (env _ (sock_recvfrom s max_bytes) w)
         = inr (other_error cls message)) ->
  outcome (interp env (recv errno max_bytes self) w)
    = (self, inr (LibraryError (other_error cls message))).
Proof.
  intros Hs [[Hk He] | (Hk & Hb & He)].
  - rewrite (recv_stream _ _ _ _ _ _ s) by assumption. cbn [outcome].
    rewrite He. reflexivity.
  - destruct (bind self) as [b |] eqn:Eb; [| contradiction].
    rewrite (recv_datagram _ _ _ _ _ _ s b) by assumption. cbn [outcome].
    rewrite He. reflexivity.
Qed.

Lemma recv_raises_other_exceptions_witness :
  let self := sample_connection "tcp" None (Some 3%nat) in
  let e := other_error "TypeError" "an integer is required" in
  outcome (interp (sample_env (inr e) (inl tt)) (recv linux_errno 512 self)
             (sample_world0 []))
  = (self, inr (LibraryError e)).
Proof.
  intros self e.
  apply (recv_raises_other_exceptions linux_errno _ _ _ self 512 3%nat
           "TypeError" "an integer is required"); [reflexivity |].
  left. split; [by_evaluation | reflexivity].
Defined.

(** ** Sessions *)

Lemma calls_all_bind {R T} (P : any_call -> Prop) (t : prog R)
    (f : R -> prog T) :
  calls_all P t ->
  leaves_all (fun r => calls_all P (f r)) t ->
  calls_all P (prog_bind t f).
Proof.
  induction t as [r | X c k IH]; cbn; intros Hc Hl.
  - exact Hl.
  - destruct Hc as [Hc Hk]. split; [exact Hc |].
    intros a. apply IH; [apply Hk | apply Hl].
Qed.

Lemma leaves_all_and {R} (P Q : R -> Prop) (t : prog R) :
  leaves_all P t -> leaves_all Q t -> leaves_all (fun r => P r /\ Q r) t.
Proof.
  induction t as [r | X c k IH]; cbn; intros HP HQ.
  - split; assumption.
  - intros a. apply IH; [apply HP | apply HQ].
Qed.

(** An operation other than [open] keeps the connection and calls
    nothing but methods of the socket the connection holds. *)
Lemma perform_on_own_socket errno (op : operation) (self : SocketConnection) :
  op <> op_open ->
  leaves_all (fun sr => fst sr = self) (perform errno op self)
  /\ calls_all (fun c => target c = _sock self) (perform errno op self).
Proof.
  intros Hop.
  destruct op as [| | n | cls data]; [contradiction | | |]; split;
    walk_any self ltac:(idtac; first [exact I | reflexivity]).
Qed.

Lemma session_on_own_socket errno (ops : list operation)
    (self : SocketConnection) :
  existsb is_open ops = false ->
  leaves_all (fun sr => fst sr = self) (session errno ops self)
  /\ calls_all (fun c => target c = _sock self) (session errno ops self).
Proof.
  induction ops as [| op ops IH]; intros Hops.
  - cbn. split; [reflexivity | exact I].
  - cbn [existsb] in Hops. apply orb_false_elim in Hops as [Hop Hops].
    assert (Hne : op <> op_open) by (intros ->; discriminate Hop).
    destruct (perform_on_own_socket errno op self Hne) as [Hl Hc].
    destruct (IH Hops) as [IHl IHc].
    cbn [session]. unfold and_then at 1 3. unfold attempt. split.
    + apply leaves_all_bind, leaves_all_bind.
      eapply leaves_all_impl; [| exact Hl].
      intros [self1 r] Hself. cbn [fst snd] in *. subst self1.
      cbn [leaves_all fst snd]. unfold and_then. apply leaves_all_bind.
      eapply leaves_all_impl; [| exact IHl].
      intros [self2 [rs | e]] Hself; cbn [fst snd] in *; subst self2;
        reflexivity.
    + apply calls_all_bind.
      * apply calls_all_bind; [exact Hc |].
        eapply leaves_all_impl; [| exact Hl]. intros sr _. exact I.
      * apply leaves_all_bind.
        eapply leaves_all_impl; [| exact Hl].
        intros [self1 r] Hself. cbn [fst snd] in *. subst self1.
        cbn [leaves_all fst snd]. unfold and_then.
        apply calls_all_bind; [exact IHc |].
        eapply leaves_all_impl; [| exact IHl].
        intros [self2 [rs | e]] _; exact I.
Qed.

(** X15: over any sequence of [recv], [send] and [close], in any order
    and however each ends, the connection stays as it was and every
    library call is a method of the one socket it holds: [close] does not
    make the connection forget its socket, so what follows a [close]
    still reads from, writes to or closes that same socket. *)
Theorem session_without_open_uses_one_socket errno W (env : handler W)
    (w : W) (ops : list operation) (self : SocketConnection) :
  existsb is_open ops = false ->
  state_of (interp env (session errno ops self) w) = self
  /\ Forall (fun c => target c = _sock self)
            (calls (interp env (session errno ops self) w)).
Proof.
  intros Hops. destruct (session_on_own_socket errno ops self Hops) as [Hl Hc].
  split.
  - apply (interp_leaves (fun sr => fst sr = self)), Hl.
  - apply interp_calls_all, Hc.
Qed.

Lemma session_without_open_uses_one_socket_witness :
  let self := sample_connection "tcp" None (Some 3%nat) in
  let ops := [op_close; op_send (class_body 65535) [Byte.x00]; op_close] in
  let r := interp (sample_env (inl []) (inl tt)) (session linux_errno ops self)
             (sample_world0 []) in
  calls r = [AnyCall (sock_close 3%nat);
             AnyCall (sock_send 3%nat [Byte.x00]);
             AnyCall (sock_close 3%nat)]
  /\ state_of r = self
  /\ Forall (fun c => target c = _sock self) (calls r).
Proof.
  intros self ops r. split; [reflexivity |].
  apply (session_without_open_uses_one_socket linux_errno _ _ _ ops self).
  reflexivity.
Defined.

(** ** Attributes that only some kinds use *)

(** X16: [ethernet_proto] and [l2_dst] are used by raw-l3 only: on tcp,
    ssl, udp and raw-l2, with other values for them every operation makes
    the same calls, returns or raises the same, and leaves the same
    connection up to these two attributes. *)
Theorem link_attributes_only_for_raw_l3 errno W (env : handler W) (w : W)
    (self : SocketConnection) (ethernet_proto_ : Z) (l2_dst_ : bytes)
    (op : operation) :
  proto self ∈ ["tcp"; "ssl"; "udp"; "raw-l2"] ->
  calls (interp env
           (perform errno op (set_link ethernet_proto_ l2_dst_ self)) w)
    = calls (interp env (perform errno op self) w)
  /\ world (interp env
              (perform errno op (set_link ethernet_proto_ l2_dst_ self)) w)
     = world (interp env (perform errno op self) w)
  /\ result_of (interp env
                  (perform errno op (set_link ethernet_proto_ l2_dst_ self)) w)
     = result_of (interp env (perform errno op self) w)
  /\ state_of (interp env
                 (perform errno op (set_link ethernet_proto_ l2_dst_ self)) w)
     = set_link ethernet_proto_ l2_dst_
         (state_of (interp env (perform errno op self) w)).
Proof.
  intros Hk. destruct self as [h q b t k e l so]; simpl in *.
  unfold result_of, state_of, set_link.
  kinds Hk; subst; destruct op as [| | n | cls data];
    try (destruct b as [b |]); destruct so as [s |];
    unfold perform, send, and_then, get; cbn [prog_bind fst snd proto];
    try generalize_entry; run_method; settle_run env;
    repeat split; reflexivity.
Qed.

Lemma link_attributes_only_for_raw_l3_witness :
  let self := sample_connection "raw-l2" None (Some 3%nat) in
  let op := op_send (class_body 65535) [Byte.x00] in
  let env := sample_env (inl []) (inl tt) in
  calls (interp env (perform linux_errno op (set_link 0x86dd [] self))
           (sample_world0 []))
  = calls (interp env (perform linux_errno op self) (sample_world0 [])).
Proof.
  intros self op env.
  apply (link_attributes_only_for_raw_l3 linux_errno _ env (sample_world0 [])
           self 0x86dd [] op).
  by_evaluation.
Defined.

(** X17: the bind pair is used by udp only: on tcp, ssl, raw-l2 and
    raw-l3, with another bind pair, or none, every operation makes the
    same calls, returns or raises the same, and leaves the same connection
    up to the bind pair. *)
Theorem bind_only_for_udp errno W (env : handler W) (w : W)
    (self : SocketConnection) (bind_ : option (string * Z))
    (op : operation) :
  proto self ∈ ["tcp"; "ssl"; "raw-l2"; "raw-l3"] ->
  calls (interp env (perform errno op (set_bind bind_ self)) w)
    = calls (interp env (perform errno op self) w)
  /\ world (interp env (perform errno op (set_bind bind_ self)) w)
     = world (interp env (perform errno op self) w)
  /\ result_of (interp env (perform errno op (set_bind bind_ self)) w)
     = result_of (interp env (perform errno op self) w)
  /\ state_of (interp env (perform errno op (set_bind bind_ self)) w)
     = set_bind bind_ (state_of (interp env (perform errno op self) w)).
Proof.
  intros Hk. destruct self as [h q b t k e l so]; simpl in *.
  unfold result_of, state_of, set_bind.
  kinds Hk; subst; destruct op as [| | n | cls data];
    destruct so as [s |];
    unfold perform, send, and_then, get; cbn [prog_bind fst snd proto];
    try generalize_entry; run_method; settle_run env;
    repeat split; reflexivity.
Qed.

Lemma bind_only_for_udp_witness :
  let self := sample_connection "tcp" None (Some 3%nat) in
  let env := sample_env (inl []) (inl tt) in
  calls (interp env
           (perform linux_errno op_open (set_bind (Some ("0.0.0.0", 9)) self))
           (sample_world0 []))
  = calls (interp env (perform linux_errno op_open self) (sample_world0 [])).
Proof.
  intros self env.
  apply (bind_only_for_udp linux_errno _ env (sample_world0 []) self
           (Some ("0.0.0.0", 9)) op_open).
  by_evaluation.
Defined.

(** ** Construction and the platform query *)

(** X18: when the query of the platform UDP maximum raises, construction
    raises that exception for every argument list, an unsupported kind or
    a missing port included: the query comes before the validation; the
    shared table is left as it was. *)
Theorem init_raises_query_failure W (env : handler W) (w : W)
    (cls : class_attrs) (e : lib_exn) host_ port_ proto_ bind_ timeout_
    ethernet_proto_ l2_dst_ :
  fst (env _ helpers_get_max_udp_size w) = inr e ->
  outcome (interp env
    (__init__ host_ port_ proto_ bind_ timeout_ ethernet_proto_ l2_dst_ cls) w)
  = (cls, inr (LibraryError e)).
Proof. intros He. rewrite init_run. cbn [outcome]. rewrite He. reflexivity. Qed.

Lemma init_raises_query_failure_witness :
  outcome (interp (sample_env (inl []) (inl tt))
    (__init__ "127.0.0.1" None "gopher" default_bind default_timeout
       default_ethernet_proto default_l2_dst (class_body 65535))
    (sample_world0 []))
  = (class_body 65535,
     inr (LibraryError (other_error "Exception" "Unknown platform!"))).
Proof.
  apply (init_raises_query_failure _ (sample_env (inl []) (inl tt))
           (sample_world0 []) (class_body 65535)
           (other_error "Exception" "Unknown platform!")).
  reflexivity.
Defined.

(** ** The configuration of a connection *)

Lemma perform_keeps_config errno (op : operation) (self : SocketConnection) :
  leaves_all (fun sr => config (fst sr) = config self) (perform errno op self).
Proof.
  destruct op as [| | n | cls data];
    walk_any self ltac:(idtac; reflexivity).
Qed.

Lemma session_keeps_config errno (ops : list operation) :
  forall self : SocketConnection,
    leaves_all (fun sr => config (fst sr) = config self)
      (session errno ops self).
Proof.
  induction ops as [| op ops IH]; intros self.
  - reflexivity.
  - cbn [session]. unfold and_then at 1. unfold attempt.
    apply leaves_all_bind, leaves_all_bind.
    eapply leaves_all_impl; [| apply (perform_keeps_config errno op self)].
    intros [self1 r] H1. cbn [fst snd] in *. cbn [leaves_all fst snd].
    unfold and_then. apply leaves_all_bind.
    eapply leaves_all_impl; [| apply (IH self1)].
    intros [self2 [rs | e]] H2; cbn [fst snd] in *; cbn; congruence.
Qed.

(** X19: over any sequence of [open], [close], [recv] and [send],
    however each ends, the host, port, bind pair, timeout, kind, Ethernet
    protocol and link destination of the connection stay what they were:
    only [_sock] ever changes. *)
Theorem session_keeps_configuration errno W (env : handler W) (w : W)
    (ops : list operation) (self : SocketConnection) :
  config (state_of (interp env (session errno ops self) w)) = config self.
Proof.
  apply (interp_leaves (fun sr => config (fst sr) = config self)).
  apply session_keeps_config.
Qed.

(** On a supported kind that has its port when it is tcp, ssl or udp,
    no operation hands a [connect] or a [sendto] an absent port. *)
Lemma perform_hands_port errno (op : operation) (self : SocketConnection) :
  proto self ∈ ["tcp"; "ssl"; "udp"; "raw-l2"; "raw-l3"] ->
  (proto self ∈ ["tcp"; "ssl"; "udp"] -> port self <> None) ->
  calls_all (fun c => absent_port c = false) (perform errno op self).
Proof.
  intros Hk Hport. destruct self as [h [p |] [b |] t k e l [s |]];
    cbn [proto port] in *.
  all: kinds Hk; subst;
    try (exfalso; apply Hport; [by_evaluation | reflexivity]);
    destruct op as [| | n | cls data]; expose_method; run_method;
    walk_cases ltac:(idtac; first [exact I | reflexivity]).
Qed.

Lemma session_hands_port errno (ops : list operation) :
  forall self : SocketConnection,
    proto self ∈ ["tcp"; "ssl"; "udp"; "raw-l2"; "raw-l3"] ->
    (proto self ∈ ["tcp"; "ssl"; "udp"] -> port self <> None) ->
    calls_all (fun c => absent_port c = false) (session errno ops self).
Proof.
  induction ops as [| op ops IH]; intros self Hk Hport.
  - exact I.
  - cbn [session]. unfold and_then at 1. unfold attempt.
    apply calls_all_bind.
    + apply calls_all_bind; [apply perform_hands_port; assumption |].
      eapply leaves_all_impl; [| apply (perform_keeps_config errno op self)].
      intros sr _. exact I.
    + apply leaves_all_bind.
      eapply leaves_all_impl; [| apply (perform_keeps_config errno op self)].
      intros [self1 r] Hc. cbn [fst snd] in *. cbn [leaves_all fst snd].
      unfold config in Hc. injection Hc as _ Hp _ _ Hpr _ _.
      unfold and_then. apply calls_all_bind.
      * apply IH; rewrite Hpr; [exact Hk |]. rewrite Hp. exact Hport.
      * eapply leaves_all_impl; [| apply (session_keeps_config errno ops self1)].
        intros [self2 [rs | e']] _; exact I.
Qed.

(** X20: a connection constructed for tcp, ssl or udp (in any
    spelling) was given a port, and has that port after any sequence of
    operations; and on a constructed connection of any kind, no sequence
    of operations ever hands a [connect] or a [sendto] an address pair
    whose port is absent. *)
Theorem constructed_port_stays_present errno W (env : handler W) (w : W)
    (cls cls' : class_attrs) (self : SocketConnection)
    host_ port_ proto_ bind_ timeout_ ethernet_proto_ l2_dst_ :
  outcome (interp env
    (__init__ host_ port_ proto_ bind_ timeout_ ethernet_proto_ l2_dst_ cls) w)
    = (cls', inl self) ->
  (lowercase proto_ ∈ ["tcp"; "ssl"; "udp"] ->
   exists p,
     port_ = Some p
     /\ forall V (env' : handler V) (v : V) (ops : list operation),
          port (state_of (interp env' (session errno ops self) v)) = Some p)
  /\ forall V (env' : handler V) (v : V) (ops : list operation),
       Forall (fun c => absent_port c = false)
              (calls (interp env' (session errno ops self) v)).
Proof.
  intros Hinit. rewrite init_run in Hinit. cbn [outcome] in Hinit.
  rewrite <- lower_lowercase.
  destruct (fst (env _ helpers_get_max_udp_size w)) as [size | e];
    [| discriminate].
  destruct (bool_decide (lower proto_ ∈ _PROTOCOLS)) eqn:Ek;
    cbn [negb] in Hinit; [| discriminate].
  apply bool_decide_eq_true_1 in Ek.
  assert (Hreq : lower proto_ ∈ ["tcp"; "ssl"; "udp"] -> port_ <> None).
  { intros Hk Hnone. subst port_.
    rewrite (bool_decide_eq_true_2 _ Hk) in Hinit. discriminate Hinit. }
  destruct (bool_decide (lower proto_ ∈ _PROTOCOLS_PORT_REQUIRED)
            && bool_decide (port_ = None)); [discriminate |].
  injection Hinit as _ Hself.
  assert (Hproto : proto self = lower proto_)
    by (rewrite <- Hself; reflexivity).
  assert (Hport : port self = port_) by (rewrite <- Hself; reflexivity).
  split.
  - intros Hk. destruct port_ as [p |]; [| exfalso; apply (Hreq Hk eq_refl)].
    exists p. split; [reflexivity |]. intros V env' v ops.
    pose proof (interp_leaves _ env' _ v
                  (session_keeps_config errno ops self)) as Hc.
    unfold config in Hc. cbn [fst] in Hc. unfold state_of.
    injection Hc as _ Hp _ _ _ _ _. rewrite Hp. exact Hport.
  - intros V env' v ops. apply interp_calls_all, session_hands_port.
    + rewrite Hproto. exact Ek.
    + rewrite Hproto, Hport. exact Hreq.
Qed.

Lemma constructed_port_stays_present_witness :
  let self :=
    {| host := "127.0.0.1"; port := Some 8888; bind := None;
       timeout := default_timeout; proto := "udp";
       ethernet_proto := default_ethernet_proto; l2_dst := default_l2_dst;
       _sock := None |} in
  let ops := [op_open; op_send (class_body 65535) [Byte.x00]; op_close] in
  let r := interp (sample_env (inl []) (inl tt))
             (session linux_errno ops self) (sample_world0 []) in
  calls r = [AnyCall (socket_socket AF_INET SOCK_DGRAM);
             AnyCall (sock_settimeout 3%nat default_timeout);
             AnyCall (sock_sendto 3%nat [Byte.x00]
                        (addr_pair "127.0.0.1" (Some 8888)));
             AnyCall (sock_close 3%nat)]
  /\ port (state_of r) = Some 8888
  /\ Forall (fun c => absent_port c = false) (calls r).
Proof.
  intros self ops r. split; [reflexivity |].
  destruct (constructed_port_stays_present linux_errno _
              (sample_env (inl []) (inl tt)) (sample_world0 [65507])
              (class_body 65535)
              (setitem_MAX_PAYLOADS "udp" 65507 (class_body 65535)) self
              "127.0.0.1" (Some 8888) "UDP" None default_timeout
              default_ethernet_proto default_l2_dst eq_refl)
    as [Hport Hcalls].
  split.
  - destruct Hport as (p & Hp & Hops); [by_evaluation |].
    injection Hp as <-. apply Hops.
  - apply Hcalls.
Defined.
